(** * MLflow Insights: AI Analysis front end and investigation store

    A shallow embedding of the TypeScript sources of the AI Analysis pages
    (types.ts, IssuesView.tsx, RunsView.tsx, InsightsPageAIAnalysis.tsx,
    TracePreview.tsx, hooks/useAgenticInsightsApi.ts) and of the entity
    repository that the specification describes, followed by the properties
    proved about them.

    Conventions.  A JavaScript [number] that holds a count, a length or a
    timestamp is a [Z]; an optional field [f?: T] is an [option T]; a string
    literal union is an inductive type; a settled promise is a value of
    [Promise]; a plain object used as a record of named fields is a
    [gmap string value]. *)

From Stdlib Require Import ZArith Lia Sorting.Sorted Sorting.Permutation.
From stdpp Require Import gmap strings list pretty sorting.

Set Warnings "-register-all".
Local Open Scope Z_scope.

(* ================================================================== *)
(** * Part I: definitions                                              *)
(* ================================================================== *)

(** ** The fragment of JavaScript the sources rely on *)
Module Js.

(** Run-time values. *)
Inductive value : Type :=
  | Undefined
  | Null
  | Bool (b : bool)
  | Num (z : Z)
  | Str (s : string)
  | Arr (l : list value)
  | Obj (m : gmap string value).

(** ToBoolean: [undefined], [null], [false], [0] and [''] are falsy. *)
Definition truthy (v : value) : bool :=
  match v with
  | Undefined | Null => false
  | Bool b => b
  | Num z => negb (z =? 0)
  | Str s => negb (String.eqb s "")
  | Arr _ | Obj _ => true
  end.

(** [a || b] and [a && b] on values. *)
Definition or (a b : value) : value := if truthy a then a else b.
Definition and (a b : value) : value := if truthy a then b else a.

(** [a || d] where [a] is an optional number and [d] a number. *)
Definition num_or (a : option Z) (d : Z) : Z :=
  match a with
  | Some n => if n =? 0 then d else n
  | None => d
  end.

(** [a ?? d]: only [undefined] (and [null]) select the default. *)
Definition nullish {A : Type} (a : option A) (d : A) : A :=
  match a with
  | Some x => x
  | None => d
  end.

(** An optional value as a run-time value. *)
Definition of_option {A : Type} (f : A -> value) (a : option A) : value :=
  match a with
  | Some x => f x
  | None => Undefined
  end.

(** Errors that the modelled code can raise or pass on. *)
Inductive error : Type :=
  | Error (message : value)          (* new Error(message) *)
  | TypeError (message : string)     (* raised by the engine *)
  | Thrown (reason : value).         (* any other rejection reason *)

(** A settled promise (or the outcome of an [await]). *)
Inductive Promise (A : Type) : Type :=
  | Resolved (x : A)
  | Rejected (e : error).
Arguments Resolved {A} x.
Arguments Rejected {A} e.

(** [p.catch(() => d)] *)
Definition catch {A : Type} (p : Promise A) (d : A) : Promise A :=
  match p with
  | Resolved x => Resolved x
  | Rejected _ => Resolved d
  end.

(** Property read [v.name].  Reading a property of [undefined] or [null]
    raises a TypeError; an object yields the stored value or [undefined];
    the other values have no property of the names read here. *)
Definition get (v : value) (name : string) : Promise value :=
  match v with
  | Undefined =>
      Rejected (TypeError ("Cannot read properties of undefined (reading '" +:+ name +:+ "')"))
  | Null =>
      Rejected (TypeError ("Cannot read properties of null (reading '" +:+ name +:+ "')"))
  | Obj m => Resolved (default Undefined (m !! name))
  | _ => Resolved Undefined
  end.

(** The own enumerable string-keyed properties of a value, as object
    spread [{...v}] copies them: none for [undefined], [null], booleans and
    numbers, the indexed elements for strings and arrays, the fields for
    objects. *)
Fixpoint indexed (i : nat) (l : list value) : gmap string value :=
  match l with
  | [] => ∅
  | x :: l' => <[pretty i := x]> (indexed (S i) l')
  end.

Fixpoint chars (s : string) : list value :=
  match s with
  | EmptyString => []
  | String c s' => Str (String c EmptyString) :: chars s'
  end.

Definition own_properties (v : value) : gmap string value :=
  match v with
  | Undefined | Null | Bool _ | Num _ => ∅
  | Str s => indexed 0 (chars s)
  | Arr l => indexed 0 l
  | Obj m => m
  end.

(** [{...target, ...v}]: later properties overwrite earlier ones. *)
Definition spread (target : gmap string value) (v : value) : gmap string value :=
  own_properties v ∪ target.

(** [Array.prototype.sort(comparefn)].  The sort is stable (ECMAScript
    2019): elements that compare equal keep their relative order, so for a
    comparison function that orders by a number the result does not depend
    on the engine's algorithm.  It is written as the insertion of each
    element, from the last to the first, in front of the first element it
    does not compare greater than. *)
Fixpoint sort_insert {A : Type} (comparefn : A -> A -> Z) (x : A) (l : list A) : list A :=
  match l with
  | [] => [x]
  | y :: l' =>
      if 0 <? comparefn x y then y :: sort_insert comparefn x l' else x :: y :: l'
  end.

Definition sort {A : Type} (comparefn : A -> A -> Z) (l : list A) : list A :=
  foldr (sort_insert comparefn) [] l.

End Js.

(** ** types.ts *)
Module AnalysisStatus.
Inductive t : Set := ACTIVE | COMPLETED | ARCHIVED.
#[global] Instance eq_dec : EqDecision t.
Proof. solve_decision. Defined.
End AnalysisStatus.

Module HypothesisStatus.
Inductive t : Set := TESTING | VALIDATED | REJECTED.
#[global] Instance eq_dec : EqDecision t.
Proof. solve_decision. Defined.
End HypothesisStatus.

Module Severity.
Inductive t : Set := CRITICAL | HIGH | MEDIUM | LOW.
#[global] Instance eq_dec : EqDecision t.
Proof. solve_decision. Defined.
End Severity.

Module IssueStatus.
Inductive t : Set := OPEN | IN_PROGRESS | RESOLVED | REJECTED.
#[global] Instance eq_dec : EqDecision t.
Proof. solve_decision. Defined.

(** The string the literal type denotes at run time. *)
Definition to_string (s : t) : string :=
  match s with
  | OPEN => "OPEN"
  | IN_PROGRESS => "IN_PROGRESS"
  | RESOLVED => "RESOLVED"
  | REJECTED => "REJECTED"
  end.
End IssueStatus.

Module Evidence.
Record t : Type := mk {
  trace_id : string;
  rationale : string;
  supports : bool;
}.
End Evidence.

Module IssueEvidence.
Record t : Type := mk {
  trace_id : string;
  rationale : string;
}.
End IssueEvidence.

Module Analysis.
Record t : Type := mk {
  run_id : string;
  name : string;
  description : option string;
  status : AnalysisStatus.t;
  hypothesis_count : option Z;
  validated_count : option Z;
  created_at : Z;
  updated_at : Z;
  metadata : option (gmap string Js.value);
}.
End Analysis.

Module HypothesisT.
Record t : Type := mk {
  hypothesis_id : string;
  statement : string;
  testing_plan : option string;
  status : HypothesisStatus.t;
  evidence : option (list Evidence.t);   (* may not be present in all responses *)
  evidence_count : option Z;
  trace_count : option Z;
  supports_count : option Z;
  refutes_count : option Z;
  metrics : option (gmap string Js.value);
  created_at : Z;
  updated_at : Z;
  metadata : option (gmap string Js.value);
}.
End HypothesisT.

Module Issue.
Record t : Type := mk {
  issue_id : string;
  source_run_id : option string;
  hypothesis_id : option string;
  title : string;
  description : string;
  severity : Severity.t;
  status : IssueStatus.t;
  evidence : option (list IssueEvidence.t);
  trace_count : option Z;               (* the backend returns this instead of trace ids *)
  assessments : option (list string);
  resolution : option string;
  created_at : Z;
  updated_at : Z;
  metadata : option (gmap string Js.value);
}.
End Issue.

Module TracePreviewT.
Record t : Type := mk {
  trace_id : string;
  request_id : string;
  status : string;
  execution_time_ms : Z;
  timestamp : Z;
  evidence_rationale : option string;
}.
End TracePreviewT.

Module ListHypothesesResponse.
Record t : Type := mk { hypotheses : list HypothesisT.t }.
End ListHypothesesResponse.

Module ListIssuesResponse.
Record t : Type := mk { issues : list Issue.t }.
End ListIssuesResponse.

Module PreviewTracesResponse.
Record t : Type := mk {
  traces : list TracePreviewT.t;
  total_count : Z;
  returned_count : Z;
}.
End PreviewTracesResponse.

(** ** IssuesView.tsx *)
Module IssuesView.

Inductive SortField : Set := trace_count | severity | created_at | status.
Inductive SortOrder : Set := asc | desc.

(** The initial values of the [sortField] and [sortOrder] state. *)
Definition initialSortField : SortField := trace_count.
Definition initialSortOrder : SortOrder := desc.

(** The table [{ CRITICAL: 4, HIGH: 3, MEDIUM: 2, LOW: 1 }]. *)
Definition severityOrder (s : Severity.t) : Z :=
  match s with
  | Severity.CRITICAL => 4
  | Severity.HIGH => 3
  | Severity.MEDIUM => 2
  | Severity.LOW => 1
  end.

Section Comparator.
(** [String.prototype.localeCompare] belongs to the host: a negative,
    zero or positive number according to the locale's collation. *)
Variable localeCompare : string -> string -> Z.

(** The value computed by the [switch] on the sort field. *)
Definition compareValue (sortField : SortField) (a b : Issue.t) : Z :=
  match sortField with
  | trace_count =>
      Js.num_or (Issue.trace_count a) 0 - Js.num_or (Issue.trace_count b) 0
  | severity =>
      severityOrder (Issue.severity a) - severityOrder (Issue.severity b)
  | created_at =>
      Issue.created_at a - Issue.created_at b
  | status =>
      localeCompare (IssueStatus.to_string (Issue.status a))
                    (IssueStatus.to_string (Issue.status b))
  end.

(** The comparison function handed to [sort]. *)
Definition comparator (sortField : SortField) (sortOrder : SortOrder)
    (a b : Issue.t) : Z :=
  match sortOrder with
  | desc => - compareValue sortField a b
  | asc => compareValue sortField a b
  end.

(** [sortedIssues]: the empty list while there is no data, otherwise a
    sorted copy of the issues of the response. *)
Definition sortedIssues (data : option ListIssuesResponse.t)
    (sortField : SortField) (sortOrder : SortOrder) : list Issue.t :=
  match data with
  | None => []
  | Some d => Js.sort (comparator sortField sortOrder) (ListIssuesResponse.issues d)
  end.
End Comparator.

(** The trace count shown in the table: [issue.trace_count || 0]. *)
Definition shown_trace_count (issue : Issue.t) : Z :=
  Js.num_or (Issue.trace_count issue) 0.

(** The number by which a sort field other than the status orders. *)
Definition fieldKey (sortField : SortField) (i : Issue.t) : Z :=
  match sortField with
  | trace_count => shown_trace_count i
  | severity => severityOrder (Issue.severity i)
  | created_at => Issue.created_at i
  | status => 0
  end.

(** An order on the shown issues: trace count descending, and among
    equal trace counts the creation time descending. *)
Definition ties_by_created_at_desc (l : list Issue.t) : Prop :=
  StronglySorted
    (fun a b =>
       shown_trace_count b < shown_trace_count a
       \/ (shown_trace_count b = shown_trace_count a
           /\ Issue.created_at b <= Issue.created_at a)) l.

(** The 'Source Run' cell: the first 8 characters of the run id followed by
    three dots, a dash when the issue has no (or an empty) source run:
    [issue.source_run_id ? issue.source_run_id.slice(0, 8) + '...' : '-']. *)
Definition sourceRunCell (issue : Issue.t) : string :=
  match Issue.source_run_id issue with
  | Some id => if String.eqb id "" then "-" else String.substring 0 8 id +:+ "..."
  | None => "-"
  end.

End IssuesView.

(** ** hooks/useAgenticInsightsApi.ts *)
Module AgenticInsightsApi.

(** Base URL of the agentic insights API. *)
Definition AGENTIC_API_BASE : string := "/ajax-api/2.0/mlflow/traces/insights/agentic".

(** The second argument of [fetch]; [body] is the value that the code
    passes through [JSON.stringify] (which leaves out a field whose value is
    [undefined]). *)
Record RequestInit : Type := {
  method : string;
  headers : gmap string string;
  body : Js.value;
}.

(** What the code reads of a [Response]; [json] is the outcome of the
    call [response.json()]. *)
Record Response : Type := {
  ok : bool;
  statusText : string;
  json : Js.Promise Js.value;
}.

(** The host's [fetch]. *)
Definition Fetch : Type := string -> RequestInit -> Js.Promise Response.

(** Generic POST request helper. *)
Definition postAgenticApi (fetch : Fetch) (endpoint : string) (request : Js.value)
    : Js.Promise Js.value :=
  match fetch (AGENTIC_API_BASE +:+ endpoint)
              {| method := "POST";
                 headers := {[ "Content-Type" := "application/json" ]};
                 body := request |} with
  | Js.Rejected e => Js.Rejected e
  | Js.Resolved response =>
      if negb (ok response) then
        match Js.catch (json response) (Js.Obj ∅) with
        | Js.Rejected e => Js.Rejected e
        | Js.Resolved errorData =>
            match Js.get errorData "message" with
            | Js.Rejected e => Js.Rejected e
            | Js.Resolved message =>
                Js.Rejected
                  (Js.Error
                     (Js.or message
                        (Js.Str ("API request failed: " +:+ statusText response))))
            end
        end
      else json response
  end.

(** [refetchInterval?: number | false] *)
Inductive RefetchInterval : Set :=
  | Every (ms : Z)
  | Off.

(** The [options] argument of the list hooks. *)
Module Options.
Record t : Type := mk {
  enabled : option bool;
  refetchInterval : option RefetchInterval;
  isActiveRun : option bool;
}.
End Options.

(** The object handed to [useQuery]. *)
Module Query.
Record t : Type := mk {
  queryKey : list Js.value;
  queryFn : Fetch -> Js.Promise Js.value;
  enabled : bool;
  refetchInterval : option RefetchInterval;
  staleTime : Z;
}.
End Query.

(** [options?.enabled !== false] *)
Definition enabled_not_false (enabled : option (option bool)) : bool :=
  match enabled with
  | Some (Some false) => false
  | _ => true
  end.

(** [!!id] for an optional string. *)
Definition present (id : option string) : bool :=
  Js.truthy (Js.of_option Js.Str id).

(** [options?.isActiveRun] as a condition. *)
Definition isActiveRun_truthy (options : option Options.t) : bool :=
  match options with
  | Some o => Js.truthy (Js.of_option Js.Bool (Options.isActiveRun o))
  | None => false
  end.

(** Hook for fetching the list of hypotheses in a run: polls every 2
    seconds for active runs, 30 seconds for others. *)
Definition useHypothesesList (runId : option string) (options : option Options.t)
    : Query.t :=
  let refetchInterval :=
    if isActiveRun_truthy options then Every 2000
    else Js.nullish (options ≫= Options.refetchInterval) (Every 30000) in
  {| Query.queryKey :=
       [Js.Str "agentic-insights"; Js.Str "hypotheses"; Js.Str "list";
        Js.of_option Js.Str runId];
     Query.queryFn := fun fetch =>
       postAgenticApi fetch "/hypotheses/list"
         (Js.Obj {[ "insights_run_id" := Js.of_option Js.Str runId ]});
     Query.enabled :=
       enabled_not_false (Options.enabled <$> options) && present runId;
     Query.refetchInterval := Some refetchInterval;
     Query.staleTime := if isActiveRun_truthy options then 1000 else 10000 |}.

(** The request object
    [{ <key>: id!, ...(maxTraces && { max_traces: maxTraces }) }]. *)
Definition preview_request (key : string) (id : option string) (maxTraces : option Z)
    : gmap string Js.value :=
  Js.spread {[ key := Js.of_option Js.Str id ]}
    (Js.and (Js.of_option Js.Num maxTraces)
            (Js.Obj {[ "max_traces" := Js.of_option Js.Num maxTraces ]})).

(** Hook for previewing traces associated with hypotheses. *)
Definition useHypothesesPreview (runId : option string) (maxTraces : option Z)
    (options : option Options.t) : Query.t :=
  {| Query.queryKey :=
       [Js.Str "agentic-insights"; Js.Str "hypotheses"; Js.Str "preview";
        Js.of_option Js.Str runId; Js.of_option Js.Num maxTraces];
     Query.queryFn := fun fetch =>
       postAgenticApi fetch "/hypotheses/preview"
         (Js.Obj (preview_request "insights_run_id" runId maxTraces));
     Query.enabled :=
       enabled_not_false (Options.enabled <$> options) && present runId;
     Query.refetchInterval := None;
     Query.staleTime := 30000 |}.

(** Hook for previewing traces associated with issues. *)
Definition useIssuesPreview (experimentId : option string) (maxTraces : option Z)
    (options : option Options.t) : Query.t :=
  {| Query.queryKey :=
       [Js.Str "agentic-insights"; Js.Str "issues"; Js.Str "preview";
        Js.of_option Js.Str experimentId; Js.of_option Js.Num maxTraces];
     Query.queryFn := fun fetch =>
       postAgenticApi fetch "/issues/preview"
         (Js.Obj (preview_request "experiment_id" experimentId maxTraces));
     Query.enabled :=
       enabled_not_false (Options.enabled <$> options) && present experimentId;
     Query.refetchInterval := None;
     Query.staleTime := 30000 |}.

(** Hook for fetching the list of analyses in an experiment.  (The
    [isActiveRun] field of the options is not read by this hook.) *)
Definition useAnalysesList (experimentId : option string) (options : option Options.t)
    : Query.t :=
  {| Query.queryKey :=
       [Js.Str "agentic-insights"; Js.Str "analyses"; Js.Str "list";
        Js.of_option Js.Str experimentId];
     Query.queryFn := fun fetch =>
       postAgenticApi fetch "/analyses/list"
         (Js.Obj {[ "experiment_id" := Js.of_option Js.Str experimentId ]});
     Query.enabled :=
       enabled_not_false (Options.enabled <$> options) && present experimentId;
     Query.refetchInterval :=
       Some (Js.nullish (options ≫= Options.refetchInterval) (Every 30000));
     Query.staleTime := 10000 |}.

(** Hook for fetching a specific analysis. *)
Definition useAnalysis (runId : option string) (options : option Options.t) : Query.t :=
  {| Query.queryKey :=
       [Js.Str "agentic-insights"; Js.Str "analyses"; Js.Str "get";
        Js.of_option Js.Str runId];
     Query.queryFn := fun fetch =>
       postAgenticApi fetch "/analyses/get"
         (Js.Obj {[ "insights_run_id" := Js.of_option Js.Str runId ]});
     Query.enabled :=
       enabled_not_false (Options.enabled <$> options) && present runId;
     Query.refetchInterval := None;
     Query.staleTime := 10000 |}.

(** Hook for fetching a specific hypothesis. *)
Definition useHypothesis (runId hypothesisId : option string)
    (options : option Options.t) : Query.t :=
  {| Query.queryKey :=
       [Js.Str "agentic-insights"; Js.Str "hypotheses"; Js.Str "get";
        Js.of_option Js.Str runId; Js.of_option Js.Str hypothesisId];
     Query.queryFn := fun fetch =>
       postAgenticApi fetch "/hypotheses/get"
         (Js.Obj (<["hypothesis_id" := Js.of_option Js.Str hypothesisId]>
                    {[ "insights_run_id" := Js.of_option Js.Str runId ]}));
     Query.enabled :=
       enabled_not_false (Options.enabled <$> options) && present runId
       && present hypothesisId;
     Query.refetchInterval := None;
     Query.staleTime := 10000 |}.

(** Hook for fetching the list of issues in an experiment. *)
Definition useIssuesList (experimentId : option string) (options : option Options.t)
    : Query.t :=
  {| Query.queryKey :=
       [Js.Str "agentic-insights"; Js.Str "issues"; Js.Str "list";
        Js.of_option Js.Str experimentId];
     Query.queryFn := fun fetch =>
       postAgenticApi fetch "/issues/list"
         (Js.Obj {[ "experiment_id" := Js.of_option Js.Str experimentId ]});
     Query.enabled :=
       enabled_not_false (Options.enabled <$> options) && present experimentId;
     Query.refetchInterval :=
       Some (Js.nullish (options ≫= Options.refetchInterval) (Every 30000));
     Query.staleTime := 10000 |}.

(** Hook for fetching a specific issue. *)
Definition useIssue (issueId : option string) (options : option Options.t) : Query.t :=
  {| Query.queryKey :=
       [Js.Str "agentic-insights"; Js.Str "issues"; Js.Str "get";
        Js.of_option Js.Str issueId];
     Query.queryFn := fun fetch =>
       postAgenticApi fetch "/issues/get"
         (Js.Obj {[ "issue_id" := Js.of_option Js.Str issueId ]});
     Query.enabled :=
       enabled_not_false (Options.enabled <$> options) && present issueId;
     Query.refetchInterval := None;
     Query.staleTime := 10000 |}.

(** A call of one of the eight hooks of the file, with its arguments. *)
Inductive HookCall : Type :=
  | AnalysesList (experimentId : option string) (options : option Options.t)
  | AnalysisGet (runId : option string) (options : option Options.t)
  | HypothesesList (runId : option string) (options : option Options.t)
  | HypothesisGet (runId hypothesisId : option string) (options : option Options.t)
  | HypothesesPreview (runId : option string) (maxTraces : option Z)
      (options : option Options.t)
  | IssuesList (experimentId : option string) (options : option Options.t)
  | IssueGet (issueId : option string) (options : option Options.t)
  | IssuesPreview (experimentId : option string) (maxTraces : option Z)
      (options : option Options.t).

(** The query that a hook call hands to [useQuery]. *)
Definition query (call : HookCall) : Query.t :=
  match call with
  | AnalysesList experimentId options => useAnalysesList experimentId options
  | AnalysisGet runId options => useAnalysis runId options
  | HypothesesList runId options => useHypothesesList runId options
  | HypothesisGet runId hypothesisId options => useHypothesis runId hypothesisId options
  | HypothesesPreview runId maxTraces options =>
      useHypothesesPreview runId maxTraces options
  | IssuesList experimentId options => useIssuesList experimentId options
  | IssueGet issueId options => useIssue issueId options
  | IssuesPreview experimentId maxTraces options =>
      useIssuesPreview experimentId maxTraces options
  end.

(** The body with which the query function of a hook calls [fetch],
    observed through a [fetch] that rejects with the body it was handed. *)
Definition request_body (q : Query.t) : Js.value :=
  match Query.queryFn q (fun _ init => Js.Rejected (Js.Thrown (body init))) with
  | Js.Rejected (Js.Thrown b) => b
  | _ => Js.Undefined
  end.

(** A [fetch] that answers every request with the given response. *)
Definition respond (response : Response) : Fetch :=
  fun _ _ => Js.Resolved response.

End AgenticInsightsApi.

(** ** RunsView.tsx *)
Module RunsView.

(** [isActive={selectedRun.status === 'ACTIVE'}] *)
Definition isActive (selectedRun : Analysis.t) : bool :=
  bool_decide (Analysis.status selectedRun = AnalysisStatus.ACTIVE).

(** The query of [HypothesisPanel]:
    [useHypothesesList(runId, { isActiveRun: isActive })]. *)
Definition HypothesisPanel_query (runId : string) (isActive : bool)
    : AgenticInsightsApi.Query.t :=
  AgenticInsightsApi.useHypothesesList (Some runId)
    (Some (AgenticInsightsApi.Options.mk None None (Some isActive))).

(** [hypothesis.evidence?.length] *)
Definition evidence_length (hypothesis : HypothesisT.t) : option Z :=
  (fun l => Z.of_nat (length l)) <$> HypothesisT.evidence hypothesis.

(** The number in front of 'evidence items':
    [hypothesis.evidence_count || hypothesis.evidence?.length || 0]. *)
Definition evidence_items (hypothesis : HypothesisT.t) : Z :=
  Js.num_or (HypothesisT.evidence_count hypothesis)
    (Js.num_or (evidence_length hypothesis) 0).

(** The evidence entries listed in the expanded details:
    [hypothesis.evidence && hypothesis.evidence.length > 0 &&
     hypothesis.evidence.map(...)]. *)
Definition listed_evidence (hypothesis : HypothesisT.t) : list Evidence.t :=
  match HypothesisT.evidence hypothesis with
  | Some l => l
  | None => []
  end.

(** The effect that selects the first run when none is selected:
    [if (!selectedRun && data?.analyses && data.analyses.length > 0)
       setSelectedRun(data.analyses[0])]. *)
Definition autoSelect (selectedRun : option Analysis.t)
    (data : option (list Analysis.t)) : option Analysis.t :=
  match selectedRun, data with
  | None, Some (first :: _) => Some first
  | _, _ => selectedRun
  end.

(** The selection after a series of responses, the effect running after
    each of them. *)
Definition afterResponses (selectedRun : option Analysis.t)
    (responses : list (option (list Analysis.t))) : option Analysis.t :=
  foldl autoSelect selectedRun responses.

(** [formatTimestamp] of the runs table, with the current time [now] in
    milliseconds and the host's [date.toLocaleDateString()]. *)
Definition formatTimestamp (toLocaleDateString : Z -> string) (now timestamp : Z)
    : string :=
  let diff := now - timestamp in
  let minutes := diff / 60000 in                    (* Math.floor(diff / 60000) *)
  if minutes <? 1 then "Just now"
  else if minutes <? 60 then pretty minutes +:+ "m ago"
  else if minutes <? 1440 then pretty (minutes / 60) +:+ "h ago"
  else toLocaleDateString timestamp.

(** The run id under the name of a run: [analysis.run_id.slice(0, 8)]
    followed by three dots. *)
Definition runIdLabel (analysis : Analysis.t) : string :=
  String.substring 0 8 (Analysis.run_id analysis) +:+ "...".

End RunsView.

(** ** components/TracePreview.tsx *)
Module TracePreview.

Section FormatValue.
(** The host's [JSON.stringify(value, null, 2)] on a value whose
    [typeof] is ['object'] (a string, or an exception), and
    [String(value)]. *)
Variable JSON_stringify : Js.value -> Js.Promise string.
Variable String_ : Js.value -> string.

(** The text [str] that the function builds for a value that is
    neither [null] nor [undefined]. *)
Definition rendering (value : Js.value) : string :=
  match value with
  | Js.Str s => s
  | Js.Null | Js.Arr _ | Js.Obj _ =>          (* typeof value === 'object' *)
      match JSON_stringify value with
      | Js.Resolved s => s
      | Js.Rejected _ => String_ value
      end
  | _ => String_ value
  end.

(** [formatValue(value, maxLength = 150)]; [None] is an omitted second
    argument. *)
Definition formatValue (value : Js.value) (maxLength : option Z) : string :=
  let maxLength := Js.nullish maxLength 150 in
  match value with
  | Js.Null | Js.Undefined => "null"
  | _ =>
      let str := rendering value in
      if maxLength <? Z.of_nat (String.length str)
      then String.substring 0 (Z.to_nat maxLength) str +:+ "..."
      else str
  end.
End FormatValue.

(** What the component reads of the trace data: the spans, each an
    object. *)
Record TraceData : Type := { spans : option (list (gmap string Js.value)) }.

(** [span.name] for a span object. *)
Definition prop (span : gmap string Js.value) (name : string) : Js.value :=
  default Js.Undefined (span !! name).

(** [traceData?.spans?.find(span => !span.parent_id)] *)
Definition rootSpan (traceData : option TraceData) : option (gmap string Js.value) :=
  match traceData with
  | Some data =>
      match spans data with
      | Some l => List.find (fun span => negb (Js.truthy (prop span "parent_id"))) l
      | None => None
      end
  | None => None
  end.

(** [rootSpan?.inputs] and [rootSpan?.outputs] *)
Definition inputs (rootSpan : option (gmap string Js.value)) : Js.value :=
  match rootSpan with
  | Some span => prop span "inputs"
  | None => Js.Undefined
  end.

Definition outputs (rootSpan : option (gmap string Js.value)) : Js.value :=
  match rootSpan with
  | Some span => prop span "outputs"
  | None => Js.Undefined
  end.

(** The content of a preview cell: a text, or a greyed placeholder. *)
Inductive Cell : Type :=
  | Text (s : string)
  | Placeholder (s : string).

Section Cells.
Variable JSON_stringify : Js.value -> Js.Promise string.
Variable String_ : Js.value -> string.

(** [inputs ? formatValue(inputs) : <span>No input</span>] *)
Definition inputCell (traceData : option TraceData) : Cell :=
  let inputs := inputs (rootSpan traceData) in
  if Js.truthy inputs then Text (formatValue JSON_stringify String_ inputs None)
  else Placeholder "No input".

(** [outputs ? formatValue(outputs) : <span>No output</span>] *)
Definition outputCell (traceData : option TraceData) : Cell :=
  let outputs := outputs (rootSpan traceData) in
  if Js.truthy outputs then Text (formatValue JSON_stringify String_ outputs None)
  else Placeholder "No output".
End Cells.

End TracePreview.

(** ** InsightsPageAIAnalysis.tsx *)
Module InsightsPageAIAnalysis.

(** [URLSearchParams]: an ordered list of name-value pairs in which a
    name may occur several times. *)
Module URLSearchParams.
Definition t : Type := list (string * string).

(** The first value associated with the name, [null] when absent. *)
Fixpoint get (name : string) (params : t) : option string :=
  match params with
  | [] => None
  | (k, v) :: rest => if String.eqb k name then Some v else get name rest
  end.

(** Removes every pair with the name. *)
Fixpoint delete (name : string) (params : t) : t :=
  match params with
  | [] => []
  | (k, v) :: rest =>
      if String.eqb k name then delete name rest else (k, v) :: delete name rest
  end.

(** Sets the value of the first pair with the name and removes the
    others; appends a new pair when there is none. *)
Fixpoint set (name value : string) (params : t) : t :=
  match params with
  | [] => [(name, value)]
  | (k, v) :: rest =>
      if String.eqb k name then (k, value) :: delete name rest
      else (k, v) :: set name value rest
  end.
End URLSearchParams.

(** [type AIAnalysisSubpage = 'issues' | 'runs'], the values of the two
    tab triggers. *)
Inductive AIAnalysisSubpage : Set := issues | runs.

Definition subpage_string (tab : AIAnalysisSubpage) : string :=
  match tab with
  | issues => "issues"
  | runs => "runs"
  end.

Definition AI_ANALYSIS_SUBPAGE_PARAM : string := "aiAnalysisSubpage".

(** Current subpage from the URL parameters, 'issues' by default:
    [searchParams.get(AI_ANALYSIS_SUBPAGE_PARAM) || 'issues']. *)
Definition currentSubpage (searchParams : URLSearchParams.t) : string :=
  match URLSearchParams.get AI_ANALYSIS_SUBPAGE_PARAM searchParams with
  | Some s => if String.eqb s "" then "issues" else s
  | None => "issues"
  end.

(** The updater that [handleTabChange] passes to [setSearchParams]. *)
Definition tabChangeUpdater (value : string) (params : URLSearchParams.t)
    : URLSearchParams.t :=
  if String.eqb value "issues"
  then URLSearchParams.delete AI_ANALYSIS_SUBPAGE_PARAM params
  else URLSearchParams.set AI_ANALYSIS_SUBPAGE_PARAM value params.

(** [setSearchParams(updater, { replace: true })]: the search parameters
    of the next render are the ones the updater returns. *)
Definition setSearchParams (updater : URLSearchParams.t -> URLSearchParams.t)
    (searchParams : URLSearchParams.t) : URLSearchParams.t :=
  updater searchParams.

Definition handleTabChange (value : string) (searchParams : URLSearchParams.t)
    : URLSearchParams.t :=
  setSearchParams (tabChangeUpdater value) searchParams.

End InsightsPageAIAnalysis.

(** ** components/TraceEvidenceDrawer.tsx *)
Module TraceEvidenceDrawer.

(** The host's [fetch], called with the URL alone. *)
Definition FetchGet : Type := string -> Js.Promise AgenticInsightsApi.Response.

(** [fetchTrace]: the [trace] field of the JSON document of an OK
    response. *)
Definition fetchTrace (fetch : FetchGet) (traceId : string) : Js.Promise Js.value :=
  match fetch ("/ajax-api/2.0/mlflow/traces/get?request_id=" +:+ traceId) with
  | Js.Rejected e => Js.Rejected e
  | Js.Resolved response =>
      if negb (AgenticInsightsApi.ok response) then
        Js.Rejected
          (Js.Error
             (Js.Str ("Failed to fetch trace: "
                      +:+ AgenticInsightsApi.statusText response)))
      else
        match AgenticInsightsApi.json response with
        | Js.Rejected e => Js.Rejected e
        | Js.Resolved data => Js.get data "trace"
        end
  end.

End TraceEvidenceDrawer.

(** ** The development server script *)
Module DevServerScript.

(** The seconds slept before each probe: [for backoff in 0 1 2 4 8]. *)
Definition backoffs : list Z := [0; 1; 2; 4; 8].

(** The outcome of [wait_server_ready]: its return status, the seconds it
    slept and the number of probes it made. *)
Record Outcome : Type := {
  status : Z;
  slept : Z;
  probes : nat;
}.

(** The loop of [wait_server_ready]: sleep, probe with [curl], return 0 on
    the first probe that succeeds and 1 when none does.  [curl n] is the
    success of the probe number [n]. *)
Fixpoint wait_loop (curl : nat -> bool) (backoffs : list Z) (slept : Z) (probes : nat)
    : Outcome :=
  match backoffs with
  | [] => {| status := 1; slept := slept; probes := probes |}
  | backoff :: rest =>
      if curl probes
      then {| status := 0; slept := slept + backoff; probes := S probes |}
      else wait_loop curl rest (slept + backoff) (S probes)
  end.

Definition wait_server_ready (curl : nat -> bool) : Outcome :=
  wait_loop curl backoffs 0 0.

End DevServerScript.

(** ** The entity repository (Python back end) *)
Module Repository.

(** Modelled from the spec: the error taxonomy of the entity repository
    (section 7); the back end that raises these errors is not part of the
    sources at hand. *)
Inductive error : Set :=
  | NotFound
  | ValidationError
  | InvalidTransition
  | ContainerUnavailable
  | SerializationError.

Module HypothesisDoc.
(** Modelled from the spec: the fields of a Hypothesis (section 3); the
    document classes of the back end are missing. *)
Record t : Type := mk {
  id : string;
  statement : string;
  testing_plan : string;
  status : HypothesisStatus.t;
  evidence : list Evidence.t;
  metrics : gmap string Js.value;
  created_at : Z;
  updated_at : Z;
  metadata : gmap string Js.value;
}.
End HypothesisDoc.

Module IssueDoc.
(** Modelled from the spec: the fields of an Issue (section 3); the
    document classes of the back end are missing. *)
Record t : Type := mk {
  id : string;
  source_run_id : option string;
  hypothesis_id : option string;
  title : string;
  description : string;
  severity : Severity.t;
  status : IssueStatus.t;
  evidence : list IssueEvidence.t;
  assessments : list string;
  resolution : option string;
  created_at : Z;
  updated_at : Z;
  metadata : gmap string Js.value;
}.
End IssueDoc.

Module Umbrella.
(** Modelled from the spec: the content of an umbrella container
    (section 3); the run hierarchy of the back end is missing. *)
Record t : Type := mk {
  container_id : string;
  issues : gmap string IssueDoc.t;
  linked : gset string;
}.
End Umbrella.

Module AnalysisContainer.
(** Modelled from the spec: the content of an analysis container
    (section 3); the run hierarchy of the back end is missing. *)
Record t : Type := mk {
  experiment_id : string;
  hypotheses : gmap string HypothesisDoc.t;
  linked : gset string;
}.
End AnalysisContainer.

(** Modelled from the spec: the durable state behind the repository: the
    umbrella container of each experiment that has one, by experiment id,
    and the analysis containers by container id.  The experiments
    themselves belong to the substrate. *)
Record Store : Type := {
  umbrellas : gmap string Umbrella.t;
  analyses : gmap string AnalysisContainer.t;
}.

(** Modelled from the spec: the identifiers of all containers, among
    which the substrate picks a new one. *)
Definition container_ids (s : Store) : gset string :=
  dom (analyses s) ∪ list_to_set (Umbrella.container_id <$> (map_to_list (umbrellas s)).*2).

(** Modelled from the spec: [get_or_create_umbrella] (section 4.2): the
    existing umbrella is returned unchanged, otherwise one is created. *)
Definition get_or_create_umbrella (experiment_id : string) (s : Store)
    : Umbrella.t * Store :=
  match umbrellas s !! experiment_id with
  | Some u => (u, s)
  | None =>
      let u := Umbrella.mk (fresh (container_ids s)) ∅ ∅ in
      (u, {| umbrellas := <[experiment_id := u]> (umbrellas s);
             analyses := analyses s |})
  end.

(** Modelled from the spec: the status values that need evidence
    (section 3): VALIDATED and REJECTED. *)
Definition needs_evidence (status : option HypothesisStatus.t) : bool :=
  match status with
  | Some HypothesisStatus.VALIDATED | Some HypothesisStatus.REJECTED => true
  | _ => false
  end.

(** Modelled from the spec: [update_hypothesis(container_id, id, status?,
    new_evidence[])] (section 4.3).  New evidence is appended to the
    evidence of the document; a status of VALIDATED or REJECTED requires
    the resulting evidence list to be non-empty, else the call fails with
    [InvalidTransition]; an unknown container or hypothesis is
    [NotFound].  The traces of the new evidence are linked to the
    container on submission (the scenario of section 8 submits evidence
    for a trace that was never linked and expects success), and
    [updated_at] is refreshed. *)
Definition update_hypothesis (container_id id : string)
    (status : option HypothesisStatus.t) (new_evidence : list Evidence.t)
    (now : Z) (s : Store) : error + Store :=
  match analyses s !! container_id with
  | None => inl NotFound
  | Some c =>
      match AnalysisContainer.hypotheses c !! id with
      | None => inl NotFound
      | Some h =>
          let evidence := HypothesisDoc.evidence h ++ new_evidence in
          if needs_evidence status && bool_decide (evidence = [])
          then inl InvalidTransition
          else
            let h' :=
              HypothesisDoc.mk (HypothesisDoc.id h) (HypothesisDoc.statement h)
                (HypothesisDoc.testing_plan h)
                (default (HypothesisDoc.status h) status)
                evidence (HypothesisDoc.metrics h)
                (HypothesisDoc.created_at h) now (HypothesisDoc.metadata h) in
            let c' :=
              AnalysisContainer.mk (AnalysisContainer.experiment_id c)
                (<[id := h']> (AnalysisContainer.hypotheses c))
                (AnalysisContainer.linked c
                   ∪ list_to_set (Evidence.trace_id <$> new_evidence)) in
            inr {| umbrellas := umbrellas s;
                   analyses := <[container_id := c']> (analyses s) |}
      end
  end.

(** Modelled from the spec: [get_hypothesis] (section 4.3). *)
Definition get_hypothesis (container_id id : string) (s : Store)
    : error + HypothesisDoc.t :=
  match analyses s !! container_id ≫= (fun c => AnalysisContainer.hypotheses c !! id) with
  | Some h => inr h
  | None => inl NotFound
  end.

(** Modelled from the spec: the derived counters of a hypothesis
    (section 3), computed from the evidence list. *)
Definition evidence_count (h : HypothesisDoc.t) : nat :=
  length (HypothesisDoc.evidence h).

(** Modelled from the spec: the derived counter [supports_count]
    (section 3), the number of evidence entries that support. *)
Definition supports_count (h : HypothesisDoc.t) : nat :=
  length (filter (fun e => Evidence.supports e = true) (HypothesisDoc.evidence h)).

(** Modelled from the spec: [create_issue(experiment_id, title,
    description, severity, evidence[], hypothesis_id?)] (section 4.3).
    Validation comes before any access to storage (section 7): an empty
    evidence list is a [ValidationError].  The document is written into the
    umbrella container of the experiment, which is created on first use,
    under a new identifier, with status OPEN, and the traces of its
    evidence are linked to that container. *)
Definition create_issue (experiment_id title description : string)
    (severity : Severity.t) (evidence : list IssueEvidence.t)
    (hypothesis_id source_run_id : option string) (now : Z) (s : Store)
    : error + (string * Store) :=
  if bool_decide (evidence = []) then inl ValidationError
  else
    let '(u, s1) := get_or_create_umbrella experiment_id s in
    let id := fresh (dom (Umbrella.issues u)) in
    let doc :=
      IssueDoc.mk id source_run_id hypothesis_id title description severity
        IssueStatus.OPEN evidence [] None now now ∅ in
    let u' :=
      Umbrella.mk (Umbrella.container_id u) (<[id := doc]> (Umbrella.issues u))
        (Umbrella.linked u ∪ list_to_set (IssueEvidence.trace_id <$> evidence)) in
    inr (id, {| umbrellas := <[experiment_id := u']> (umbrellas s1);
                analyses := analyses s1 |}).

(** Modelled from the spec: [get_issue] as a read of the stored document
    in the umbrella container of the experiment. *)
Definition stored_issue (experiment_id id : string) (s : Store)
    : option IssueDoc.t :=
  umbrellas s !! experiment_id ≫= (fun u => Umbrella.issues u !! id).

End Repository.

(** ** Sample data used by the examples *)
Module Samples.

(** A collation that orders strings by their characters. *)
Definition ordinalCompare (a b : string) : Z :=
  match String.compare a b with
  | Lt => -1
  | Eq => 0
  | Gt => 1
  end.

(** An issue with the given identifier, trace count and creation time. *)
Definition issue (id : string) (trace_count : option Z) (created_at : Z)
    (severity : Severity.t) : Issue.t :=
  Issue.mk id None None id "" severity IssueStatus.OPEN None trace_count None None
    created_at created_at None.

(** Two issues with the same trace count, the older one listed first. *)
Definition older : Issue.t := issue "older" (Some 2) 100 Severity.LOW.
Definition newer : Issue.t := issue "newer" (Some 2) 200 Severity.HIGH.


(** Host functions for the examples of [formatValue]. *)
Definition JSON_stringify (v : Js.value) : Js.Promise string :=
  match v with
  | Js.Null => Js.Resolved "null"
  | Js.Arr [] => Js.Resolved "[]"
  | _ => Js.Rejected (Js.TypeError "Converting circular structure to JSON")
  end.

Definition String_ (v : Js.value) : string :=
  match v with
  | Js.Bool true => "true"
  | Js.Bool false => "false"
  | Js.Num z => pretty z
  | _ => "[object Object]"
  end.

(** A hypothesis without evidence, in the analysis container 'run-1' of
    the experiment 'exp-1'. *)
Definition hypothesis : Repository.HypothesisDoc.t :=
  Repository.HypothesisDoc.mk "h-1" "Slow traces wait on a lock" "Search slow traces"
    HypothesisStatus.TESTING [] ∅ 10 10 ∅.

Definition store : Repository.Store :=
  {| Repository.umbrellas := ∅;
     Repository.analyses :=
       {[ "run-1" :=
            Repository.AnalysisContainer.mk "exp-1" {[ "h-1" := hypothesis ]} ∅ ]} |}.

Definition evidence : Evidence.t := Evidence.mk "tr-9" "x" true.
Definition issue_evidence : IssueEvidence.t := IssueEvidence.mk "tr-9" "x".

End Samples.

(* ================================================================== *)
(** * Part II: properties                                              *)
(* ================================================================== *)

(** ** Array sort *)
Module JsFacts.

Lemma sort_insert_perm {A : Type} (cmp : A -> A -> Z) (x : A) (l : list A) :
  Permutation (Js.sort_insert cmp x l) (x :: l).
Proof.
  induction l as [|y l IH]; simpl; [reflexivity|].
  destruct (0 <? cmp x y); [|reflexivity].
  rewrite IH. apply perm_swap.
Qed.

Lemma sort_perm {A : Type} (cmp : A -> A -> Z) (l : list A) :
  Permutation (Js.sort cmp l) l.
Proof.
  induction l as [|x l IH]; simpl; [reflexivity|].
  rewrite sort_insert_perm. now constructor.
Qed.

(** Weakening of the order of a sorted list. *)
Lemma StronglySorted_weaken {A : Type} (R S : A -> A -> Prop) (l : list A) :
  (forall a b, R a b -> S a b) -> StronglySorted R l -> StronglySorted S l.
Proof.
  intros HRS. induction 1 as [|x l Hs IH Hall]; constructor; [exact IH|].
  eapply Forall_impl; [exact Hall|]. intros; now apply HRS.
Qed.

Section ByKey.
Context {A : Type} (key : A -> Z) (cmp : A -> A -> Z).
Hypothesis cmp_key : forall a b, cmp a b = key a - key b.

Lemma sort_insert_sorted (x : A) (l : list A) :
  StronglySorted (fun a b => key a <= key b) l ->
  StronglySorted (fun a b => key a <= key b) (Js.sort_insert cmp x l).
Proof.
  induction 1 as [|y l Hs IH Hall]; simpl.
  - repeat constructor.
  - rewrite cmp_key. destruct (Z.ltb_spec 0 (key x - key y)) as [Hlt|Hge].
    + constructor; [exact IH|].
      rewrite Forall_forall. intros z Hz.
      rewrite sort_insert_perm in Hz.
      apply elem_of_cons in Hz as [->|Hz]; [lia|].
      rewrite Forall_forall in Hall. now apply Hall.
    + constructor; [now constructor|].
      constructor; [lia|].
      eapply Forall_impl; [exact Hall|].
      intros z Hz. simpl in *. lia.
Qed.

Lemma sort_sorted (l : list A) :
  StronglySorted (fun a b => key a <= key b) (Js.sort cmp l).
Proof.
  induction l as [|x l IH]; simpl; [constructor|].
  now apply sort_insert_sorted.
Qed.

(** Stability: among the elements of one key, the order is kept. *)
Lemma sort_insert_filter (k : Z) (x : A) (l : list A) :
  filter (fun a => key a = k) (Js.sort_insert cmp x l)
  = filter (fun a => key a = k) (x :: l).
Proof.
  induction l as [|y l IH]; simpl; [reflexivity|].
  rewrite cmp_key. destruct (Z.ltb_spec 0 (key x - key y)) as [Hlt|Hge];
    [|reflexivity].
  rewrite (filter_cons _ y), IH, !filter_cons.
  repeat case_decide; try reflexivity; lia.
Qed.

Lemma sort_filter (k : Z) (l : list A) :
  filter (fun a => key a = k) (Js.sort cmp l) = filter (fun a => key a = k) l.
Proof.
  induction l as [|x l IH]; simpl; [reflexivity|].
  rewrite sort_insert_filter, !filter_cons, IH. reflexivity.
Qed.
End ByKey.

End JsFacts.

(** ** IssuesView: the order of the issues table *)
Module IssuesViewFacts.
Import IssuesView.

Lemma comparator_desc_key lc (sortField : SortField) (a b : Issue.t) :
  sortField <> status ->
  comparator lc sortField desc a b = - fieldKey sortField a - - fieldKey sortField b.
Proof.
  destruct sortField; intros Hf; try congruence;
    unfold comparator, compareValue, fieldKey, shown_trace_count; lia.
Qed.

Lemma sorted_desc_by_key lc (sortField : SortField) (l : list Issue.t) :
  sortField <> status ->
  StronglySorted (fun a b => fieldKey sortField b <= fieldKey sortField a)
    (Js.sort (comparator lc sortField desc) l).
Proof.
  intros Hf.
  eapply JsFacts.StronglySorted_weaken;
    [|apply (JsFacts.sort_sorted (fun i => - fieldKey sortField i));
      intros; now apply comparator_desc_key].
  simpl. intros; lia.
Qed.

Lemma stable_desc_by_key lc (sortField : SortField) (l : list Issue.t) (n : Z) :
  sortField <> status ->
  filter (fun i => fieldKey sortField i = n) (Js.sort (comparator lc sortField desc) l)
  = filter (fun i => fieldKey sortField i = n) l.
Proof.
  intros Hf.
  pose proof (JsFacts.sort_filter (fun i => - fieldKey sortField i)
                (comparator lc sortField desc)
                (fun a b => comparator_desc_key lc sortField a b Hf) (- n) l) as H.
  erewrite (list_filter_iff _ (fun i => - fieldKey sortField i = - n)),
           (list_filter_iff _ (fun i => - fieldKey sortField i = - n) l);
    [exact H| |]; intros; lia.
Qed.

(** C1, as amended.  Under the default sort (field 'trace_count', order
    'desc') the issues shown are a rearrangement of the issues of the
    response, ordered by trace count descending with a missing trace count
    counting as 0; issues with the same trace count stay in the order in
    which the response lists them (the creation time plays no part); and
    issues with trace counts 3, 1, 5 are shown in the order 5, 3, 1. *)
Theorem default_sort_by_trace_count (localeCompare : string -> string -> Z)
    (data : ListIssuesResponse.t) :
  let shown := sortedIssues localeCompare (Some data) initialSortField initialSortOrder in
  Permutation shown (ListIssuesResponse.issues data)
  /\ StronglySorted (fun a b => shown_trace_count b <= shown_trace_count a) shown
  /\ (forall n : Z,
        filter (fun i => shown_trace_count i = n) shown
        = filter (fun i => shown_trace_count i = n) (ListIssuesResponse.issues data))
  /\ (forall (t1 t2 t3 : Z) (s1 s2 s3 : Severity.t),
        Issue.trace_count <$>
          sortedIssues localeCompare
            (Some (ListIssuesResponse.mk
                     [Samples.issue "a" (Some 3) t1 s1;
                      Samples.issue "b" (Some 1) t2 s2;
                      Samples.issue "c" (Some 5) t3 s3]))
            initialSortField initialSortOrder
        = [Some 5; Some 3; Some 1]).
Proof.
  simpl. split; [apply JsFacts.sort_perm|].
  split; [exact (sorted_desc_by_key localeCompare trace_count _ ltac:(discriminate))|].
  split; [intros n;
          exact (stable_desc_by_key localeCompare trace_count _ n ltac:(discriminate))|].
  reflexivity.
Qed.

(** C1, as worded, fails: two issues with the same trace count, listed
    with the older one first, are shown with the older one first. *)
Lemma default_sort_keeps_tied_issues_in_place :
  sortedIssues Samples.ordinalCompare
    (Some (ListIssuesResponse.mk [Samples.older; Samples.newer]))
    initialSortField initialSortOrder
  = [Samples.older; Samples.newer]
  /\ ~ ties_by_created_at_desc
         (sortedIssues Samples.ordinalCompare
            (Some (ListIssuesResponse.mk [Samples.older; Samples.newer]))
            initialSortField initialSortOrder).
Proof.
  split; [reflexivity|].
  intros H. inversion H as [|? ? _ Hall]; subst.
  inversion Hall as [|? ? Hhd _]; subst.
  vm_compute in Hhd. destruct Hhd as [Hlt|[_ Hle]].
  - discriminate Hlt.
  - now apply Hle.
Qed.

(** C8.  The table ranks CRITICAL (4) over HIGH (3) over MEDIUM (2) over
    LOW (1); sorted by severity in descending order, the issues are a
    rearrangement of the response in which no issue comes before one of a
    higher rank, so every CRITICAL issue precedes every HIGH one, and so
    on; and for every sort field the ascending comparator is the negation
    of the descending one. *)
Theorem severity_sort_and_order_negation (localeCompare : string -> string -> Z) :
  (severityOrder Severity.CRITICAL = 4 /\ severityOrder Severity.HIGH = 3
   /\ severityOrder Severity.MEDIUM = 2 /\ severityOrder Severity.LOW = 1)
  /\ (forall data : ListIssuesResponse.t,
        let shown := sortedIssues localeCompare (Some data) severity desc in
        Permutation shown (ListIssuesResponse.issues data)
        /\ StronglySorted
             (fun a b => severityOrder (Issue.severity b) <= severityOrder (Issue.severity a))
             shown)
  /\ (forall (sortField : SortField) (a b : Issue.t),
        comparator localeCompare sortField asc a b
        = - comparator localeCompare sortField desc a b).
Proof.
  split; [repeat split|]. split.
  - intros data. simpl. split; [apply JsFacts.sort_perm|].
    exact (sorted_desc_by_key localeCompare severity _ ltac:(discriminate)).
  - intros sortField a b. unfold comparator. lia.
Qed.

End IssuesViewFacts.

(** ** RunsView: the evidence count and the polling of a run's hypotheses *)
Module RunsViewFacts.
Import AgenticInsightsApi.

(** C4.  The evidence list of a hypothesis is optional, and the number of
    evidence items shown is [evidence_count] when that field is present and
    not 0, otherwise the length of the evidence list when the list is
    present, otherwise 0. *)
Theorem evidence_items_falls_back (hypothesis : HypothesisT.t) :
  (forall n : Z,
     HypothesisT.evidence_count hypothesis = Some n -> n <> 0 ->
     RunsView.evidence_items hypothesis = n)
  /\ (forall l : list Evidence.t,
        HypothesisT.evidence_count hypothesis = None
        \/ HypothesisT.evidence_count hypothesis = Some 0 ->
        HypothesisT.evidence hypothesis = Some l ->
        RunsView.evidence_items hypothesis = Z.of_nat (length l))
  /\ (HypothesisT.evidence_count hypothesis = None
      \/ HypothesisT.evidence_count hypothesis = Some 0 ->
      HypothesisT.evidence hypothesis = None ->
      RunsView.evidence_items hypothesis = 0).
Proof.
  unfold RunsView.evidence_items, RunsView.evidence_length, Js.num_or.
  split; [|split].
  - intros n -> Hn. now apply Z.eqb_neq in Hn as ->.
  - intros l Hc ->. simpl.
    assert (Hlen : (if Z.of_nat (length l) =? 0 then 0 else Z.of_nat (length l))
                   = Z.of_nat (length l)).
    { destruct (Z.eqb_spec (Z.of_nat (length l)) 0) as [->|]; reflexivity. }
    destruct Hc as [-> | ->]; simpl; exact Hlen.
  - intros Hc ->. destruct Hc as [-> | ->]; reflexivity.
Qed.

(** A response that omits the evidence list and carries the count alone
    shows the count. *)
Example evidence_items_without_evidence :
  RunsView.evidence_items
    (HypothesisT.mk "h-1" "statement" None HypothesisStatus.TESTING None (Some 7)
       None None None None 1 1 None) = 7.
Proof. reflexivity. Qed.

(** C5.  [useHypothesesList] polls every 2000 ms whenever
    [options.isActiveRun] is true, whatever else the options hold, and every
    30000 ms when it is not and the caller supplies no interval of its own;
    the hypothesis panel, which passes only [isActiveRun], therefore polls
    every 2 seconds for a run whose status is ACTIVE and every 30 seconds
    for any other run. *)
Theorem hypotheses_poll_interval (runId : option string) :
  (forall (enabled : option bool) (interval : option RefetchInterval),
     Query.refetchInterval
       (useHypothesesList runId (Some (Options.mk enabled interval (Some true))))
     = Some (Every 2000))
  /\ (forall enabled : option bool,
        Query.refetchInterval
          (useHypothesesList runId (Some (Options.mk enabled None (Some false))))
        = Some (Every 30000)
        /\ Query.refetchInterval
             (useHypothesesList runId (Some (Options.mk enabled None None)))
           = Some (Every 30000))
  /\ Query.refetchInterval (useHypothesesList runId None) = Some (Every 30000)
  /\ (forall selectedRun : Analysis.t,
        Query.refetchInterval
          (RunsView.HypothesisPanel_query (Analysis.run_id selectedRun)
             (RunsView.isActive selectedRun))
        = Some (Every (match Analysis.status selectedRun with
                       | AnalysisStatus.ACTIVE => 2000
                       | _ => 30000
                       end))).
Proof.
  repeat split; try reflexivity.
  intros selectedRun. unfold RunsView.isActive.
  destruct (Analysis.status selectedRun); reflexivity.
Qed.

End RunsViewFacts.

(** ** The request helper and the preview hooks *)
Module ApiFacts.
Import AgenticInsightsApi.

Lemma preview_request_max_traces (key : string) (id : option string)
    (maxTraces : option Z) :
  key <> "max_traces" ->
  preview_request key id maxTraces !! "max_traces"
  = match maxTraces with
    | Some n => if n =? 0 then None else Some (Js.Num n)
    | None => None
    end.
Proof.
  intros Hkey. unfold preview_request, Js.spread, Js.and.
  destruct maxTraces as [n|]; simpl.
  - destruct (n =? 0); simpl.
    + rewrite lookup_union_r by apply lookup_empty.
      now apply lookup_singleton_ne.
    + apply lookup_union_Some_l, lookup_singleton_eq.
  - rewrite lookup_union_r by apply lookup_empty.
    now apply lookup_singleton_ne.
Qed.

Lemma preview_request_id (key : string) (id : option string) (maxTraces : option Z) :
  key <> "max_traces" ->
  preview_request key id maxTraces !! key = Some (Js.of_option Js.Str id).
Proof.
  intros Hkey. unfold preview_request, Js.spread, Js.and.
  assert (Hempty : ((∅ : gmap string Js.value) ∪ {[ key := Js.of_option Js.Str id ]}) !! key
                   = Some (Js.of_option Js.Str id)).
  { rewrite lookup_union_r by apply lookup_empty. apply lookup_singleton_eq. }
  destruct maxTraces as [n|]; simpl; [|exact Hempty].
  destruct (n =? 0); simpl; [exact Hempty|].
  rewrite lookup_union_r by (now apply lookup_singleton_ne).
  apply lookup_singleton_eq.
Qed.

(** C6, as amended.  The preview hooks put [max_traces] into the POST body
    exactly when the caller supplies a [maxTraces] other than 0, and then
    with the supplied value; the identifier of the experiment or run is
    always in the body; on an OK response the query function hands the
    JSON document of the response to the caller as it is; and a
    [PreviewTracesResponse] consists of [traces], [total_count] and
    [returned_count]. *)
Theorem preview_max_traces_in_body (id : option string) (maxTraces : option Z)
    (options : option Options.t) :
  let sent := match maxTraces with
              | Some n => if n =? 0 then None else Some (Js.Num n)
              | None => None
              end in
  (exists m : gmap string Js.value,
     request_body (useIssuesPreview id maxTraces options) = Js.Obj m
     /\ m !! "max_traces" = sent
     /\ m !! "experiment_id" = Some (Js.of_option Js.Str id))
  /\ (exists m : gmap string Js.value,
        request_body (useHypothesesPreview id maxTraces options) = Js.Obj m
        /\ m !! "max_traces" = sent
        /\ m !! "insights_run_id" = Some (Js.of_option Js.Str id))
  /\ (forall (statusText : string) (document : Js.Promise Js.value),
        Query.queryFn (useIssuesPreview id maxTraces options)
          (respond {| ok := true; statusText := statusText; json := document |})
        = document
        /\ Query.queryFn (useHypothesesPreview id maxTraces options)
             (respond {| ok := true; statusText := statusText; json := document |})
           = document)
  /\ (forall r : PreviewTracesResponse.t,
        r = PreviewTracesResponse.mk (PreviewTracesResponse.traces r)
              (PreviewTracesResponse.total_count r)
              (PreviewTracesResponse.returned_count r)).
Proof.
  simpl. split; [|split; [|split]].
  - eexists. split; [reflexivity|]. split.
    + now apply preview_request_max_traces.
    + now apply preview_request_id.
  - eexists. split; [reflexivity|]. split.
    + now apply preview_request_max_traces.
    + now apply preview_request_id.
  - intros statusText document. split; reflexivity.
  - intros []. reflexivity.
Qed.

(** C6, as worded, fails: a caller that supplies a [maxTraces] of 0 sends a
    body without [max_traces]. *)
Lemma preview_zero_max_traces_left_out :
  request_body (useIssuesPreview (Some "123") (Some 0) None)
  = Js.Obj {[ "experiment_id" := Js.Str "123" ]}
  /\ request_body (useHypothesesPreview (Some "run-1") (Some 0) None)
     = Js.Obj {[ "insights_run_id" := Js.Str "run-1" ]}.
Proof.
  split; unfold request_body; simpl; unfold preview_request, Js.spread; simpl;
    now rewrite (left_id_L ∅ (∪)).
Qed.

End ApiFacts.

(** ** The request helper on responses that are not OK *)
Module RequestHelperFacts.
Import AgenticInsightsApi.

(** The message that the helper gives the error it builds. *)
Lemma error_message_cases (message : Js.value) (statusText : string) :
  Js.or message (Js.Str ("API request failed: " +:+ statusText))
  = if Js.truthy message then message
    else Js.Str ("API request failed: " +:+ statusText).
Proof. reflexivity. Qed.

(** A rejected [fetch] reaches the caller unchanged. *)
Lemma fetch_rejection_propagates (fetch : Fetch) (endpoint : string)
    (request : Js.value) (e : Js.error) :
  (forall url init, fetch url init = Js.Rejected e) ->
  postAgenticApi fetch endpoint request = Js.Rejected e.
Proof. intros Hf. unfold postAgenticApi. now rewrite Hf. Qed.

(** A response that is not OK never yields a result. *)
Lemma not_ok_always_rejects (endpoint : string) (request : Js.value)
    (statusText : string) (document : Js.Promise Js.value) :
  exists e : Js.error,
    postAgenticApi (respond {| ok := false; statusText := statusText; json := document |})
      endpoint request
    = Js.Rejected e.
Proof.
  unfold postAgenticApi, respond; simpl.
  destruct document as [[| | | | | |m]|e]; simpl; eauto.
Qed.

(** With an error document that is an object, the error carries the
    [message] field when it is truthy and the fallback otherwise. *)
Lemma not_ok_object_message (endpoint : string) (request : Js.value)
    (statusText : string) (m : gmap string Js.value) :
  postAgenticApi
    (respond {| ok := false; statusText := statusText; json := Js.Resolved (Js.Obj m) |})
    endpoint request
  = Js.Rejected
      (Js.Error
         (Js.or (default Js.Undefined (m !! "message"))
                (Js.Str ("API request failed: " +:+ statusText)))).
Proof. reflexivity. Qed.

(** With a body that is not JSON, the error carries the fallback. *)
Lemma not_ok_unreadable_body (endpoint : string) (request : Js.value)
    (statusText : string) (e : Js.error) :
  postAgenticApi
    (respond {| ok := false; statusText := statusText; json := Js.Rejected e |})
    endpoint request
  = Js.Rejected (Js.Error (Js.Str ("API request failed: " +:+ statusText))).
Proof. reflexivity. Qed.

(** Whatever the error document, short of [null], the caller receives an
    [Error] whose message is the truthy [message] field of an object
    document, or else the fallback. *)
Lemma not_ok_error_unless_null (endpoint : string) (request : Js.value)
    (statusText : string) (document : Js.Promise Js.value) :
  document <> Js.Resolved Js.Null ->
  document <> Js.Resolved Js.Undefined ->
  exists message : Js.value,
    postAgenticApi (respond {| ok := false; statusText := statusText; json := document |})
      endpoint request
    = Js.Rejected (Js.Error message)
    /\ (message = Js.Str ("API request failed: " +:+ statusText)
        \/ (Js.truthy message = true
            /\ exists m : gmap string Js.value,
                 document = Js.Resolved (Js.Obj m) /\ m !! "message" = Some message)).
Proof.
  intros Hnull Hundef. unfold postAgenticApi, respond; simpl.
  destruct document as [[| | | | | |m]|e]; simpl; try congruence;
    try (eexists; split; [reflexivity|]; left; reflexivity).
  unfold Js.or. destruct (m !! "message") as [v|] eqn:Hm; simpl.
  - destruct (Js.truthy v) eqn:Hv; eexists; (split; [reflexivity|]).
    + right. split; [exact Hv|]. eauto.
    + left. reflexivity.
  - eexists. split; [reflexivity|]. left. reflexivity.
Qed.

(** C7.  On a response that is not OK and whose body is the JSON document
    [null], the helper fails while it reads [errorData.message]: the caller
    receives the engine's TypeError, which carries neither a message of the
    server nor the fallback 'API request failed: ...'. *)
Theorem null_error_body_raises_TypeError (endpoint : string) (request : Js.value)
    (statusText : string) :
  postAgenticApi
    (respond {| ok := false; statusText := statusText; json := Js.Resolved Js.Null |})
    endpoint request
  = Js.Rejected (Js.TypeError "Cannot read properties of null (reading 'message')").
Proof. reflexivity. Qed.

End RequestHelperFacts.

(** ** TracePreview: the preview text of a value *)
Module TracePreviewFacts.
Import TracePreview.

Lemma length_append (a b : string) :
  String.length (a +:+ b) = (String.length a + String.length b)%nat.
Proof. induction a as [|c a IH]; simpl; [reflexivity|]. now rewrite IH. Qed.

Lemma length_substring_0 (n : nat) (s : string) :
  (n <= String.length s)%nat -> String.length (String.substring 0 n s) = n.
Proof.
  revert s. induction n as [|n IH]; intros s Hn.
  - destruct s; reflexivity.
  - destruct s as [|c s]; simpl in *; [lia|]. rewrite IH; [reflexivity|lia].
Qed.

Section Host.
Variable JSON_stringify : Js.value -> Js.Promise string.
Variable String_ : Js.value -> string.

Lemma formatValue_unfold (value : Js.value) (maxLength : Z) :
  value <> Js.Null -> value <> Js.Undefined ->
  formatValue JSON_stringify String_ value (Some maxLength)
  = if maxLength <? Z.of_nat (String.length (rendering JSON_stringify String_ value))
    then String.substring 0 (Z.to_nat maxLength) (rendering JSON_stringify String_ value)
         +:+ "..."
    else rendering JSON_stringify String_ value.
Proof. destruct value; intros; try congruence; reflexivity. Qed.

(** C9, as amended.  [formatValue] is a total function.  [null] and
    [undefined] map to the string 'null', whatever [maxLength] is.  For any
    other value, a rendering (the string itself, the JSON text of an object,
    or the stringified primitive) of at most [maxLength] characters is
    returned unchanged, and a longer one is cut to its first [maxLength]
    characters followed by '...'; so for a [maxLength] that is not negative
    the output has at most [maxLength + 3] characters.  An omitted
    [maxLength] is 150. *)
Theorem formatValue_truncates (value : Js.value) (maxLength : Z) :
  let format := formatValue JSON_stringify String_ in
  let str := rendering JSON_stringify String_ value in
  (format Js.Null (Some maxLength) = "null"
   /\ format Js.Undefined (Some maxLength) = "null")
  /\ (forall s : string,
        Z.of_nat (String.length s) <= maxLength ->
        format (Js.Str s) (Some maxLength) = s)
  /\ (value <> Js.Null -> value <> Js.Undefined ->
      (Z.of_nat (String.length str) <= maxLength ->
       format value (Some maxLength) = str)
      /\ (maxLength < Z.of_nat (String.length str) ->
          format value (Some maxLength)
          = String.substring 0 (Z.to_nat maxLength) str +:+ "...")
      /\ (0 <= maxLength ->
          Z.of_nat (String.length (format value (Some maxLength))) <= maxLength + 3))
  /\ format value None = format value (Some 150).
Proof.
  simpl. split; [split; reflexivity|]. split; [|split; [|reflexivity]].
  - intros s Hs. unfold formatValue; simpl.
    destruct (Z.ltb_spec maxLength (Z.of_nat (String.length s))); [lia|reflexivity].
  - intros Hnull Hundef. rewrite formatValue_unfold by assumption.
    destruct (Z.ltb_spec maxLength
                (Z.of_nat (String.length (rendering JSON_stringify String_ value))))
      as [Hlt|Hge].
    + split; [lia|]. split; [reflexivity|]. intros Hpos.
      rewrite length_append, length_substring_0 by lia. simpl. lia.
    + split; [reflexivity|]. split; [lia|]. intros Hpos. lia.
Qed.
End Host.

(** C9, as worded, fails: for [null] and a [maxLength] of 0 the output
    'null' has 4 characters, more than [maxLength + 3]. *)
Lemma formatValue_null_exceeds_bound :
  formatValue Samples.JSON_stringify Samples.String_ Js.Null (Some 0) = "null"
  /\ 0 + 3
     < Z.of_nat (String.length
                   (formatValue Samples.JSON_stringify Samples.String_ Js.Null (Some 0))).
Proof. split; [reflexivity|]. simpl. lia. Qed.

(** A negative [maxLength] leaves the three dots alone. *)
Example formatValue_negative_maxLength :
  formatValue Samples.JSON_stringify Samples.String_ (Js.Str "abc") (Some (-1)) = "...".
Proof. reflexivity. Qed.

Example formatValue_long_string :
  formatValue Samples.JSON_stringify Samples.String_ (Js.Str "abcdefgh") (Some 5)
  = "abcde...".
Proof. reflexivity. Qed.

Example formatValue_number :
  formatValue Samples.JSON_stringify Samples.String_ (Js.Num 12345) None = "12345".
Proof. reflexivity. Qed.

End TracePreviewFacts.

(** ** InsightsPageAIAnalysis: the subpage in the URL *)
Module SubpageFacts.
Import InsightsPageAIAnalysis.

Lemma get_delete (name : string) (params : URLSearchParams.t) :
  URLSearchParams.get name (URLSearchParams.delete name params) = None.
Proof.
  induction params as [|[k v] rest IH]; simpl; [reflexivity|].
  destruct (String.eqb k name) eqn:Hk; simpl; [exact IH|]. now rewrite Hk.
Qed.

Lemma get_set (name value : string) (params : URLSearchParams.t) :
  URLSearchParams.get name (URLSearchParams.set name value params) = Some value.
Proof.
  induction params as [|[k v] rest IH]; simpl.
  - now rewrite String.eqb_refl.
  - destruct (String.eqb k name) eqn:Hk; simpl; now rewrite Hk.
Qed.

(** Other parameters of the URL are left alone by both updates. *)
Lemma get_other (name other value : string) (params : URLSearchParams.t) :
  other <> name ->
  URLSearchParams.get other (URLSearchParams.delete name params)
  = URLSearchParams.get other params
  /\ URLSearchParams.get other (URLSearchParams.set name value params)
     = URLSearchParams.get other params.
Proof.
  intros Hne.
  assert (Hneb : String.eqb name other = false).
  { apply String.eqb_neq. congruence. }
  assert (Hdel : forall l, URLSearchParams.get other (URLSearchParams.delete name l)
                           = URLSearchParams.get other l).
  { induction l as [|[k v] rest IH]; simpl; [reflexivity|].
    destruct (String.eqb_spec k name) as [->|Hk]; simpl.
    - now rewrite IH, Hneb.
    - now rewrite IH. }
  split; [apply Hdel|].
  induction params as [|[k v] rest IH]; simpl.
  - now rewrite Hneb.
  - destruct (String.eqb_spec k name) as [->|Hk]; simpl.
    + now rewrite Hdel, Hneb.
    + now rewrite IH.
Qed.

(** C10.  Selecting the 'issues' tab removes the [aiAnalysisSubpage]
    parameter; without the parameter the current subpage is 'issues'; and
    the subpage read after selecting a tab is that tab, for both tabs and
    for every other value that is not the empty string. *)
Theorem subpage_round_trip (searchParams : URLSearchParams.t) :
  URLSearchParams.get AI_ANALYSIS_SUBPAGE_PARAM (handleTabChange "issues" searchParams)
  = None
  /\ (forall params : URLSearchParams.t,
        URLSearchParams.get AI_ANALYSIS_SUBPAGE_PARAM params = None ->
        currentSubpage params = "issues")
  /\ (forall tab : AIAnalysisSubpage,
        currentSubpage (handleTabChange (subpage_string tab) searchParams)
        = subpage_string tab)
  /\ (forall value : string,
        value <> "issues" ->
        URLSearchParams.get AI_ANALYSIS_SUBPAGE_PARAM (handleTabChange value searchParams)
        = Some value)
  /\ (forall value : string,
        value <> "" ->
        currentSubpage (handleTabChange value searchParams) = value).
Proof.
  assert (Hissues : currentSubpage (handleTabChange "issues" searchParams) = "issues").
  { unfold currentSubpage, handleTabChange, setSearchParams, tabChangeUpdater; simpl.
    now rewrite get_delete. }
  assert (Hstored : forall value, value <> "issues" ->
            URLSearchParams.get AI_ANALYSIS_SUBPAGE_PARAM (handleTabChange value searchParams)
            = Some value).
  { intros value Hv. unfold handleTabChange, setSearchParams, tabChangeUpdater.
    apply String.eqb_neq in Hv. rewrite Hv. apply get_set. }
  assert (Hany : forall value, value <> "" ->
            currentSubpage (handleTabChange value searchParams) = value).
  { intros value Hv. destruct (String.eqb_spec value "issues") as [->|Hi];
      [exact Hissues|].
    unfold currentSubpage. rewrite (Hstored value Hi).
    apply String.eqb_neq in Hv. now rewrite Hv. }
  split; [apply get_delete|]. split.
  - intros params Hnone. unfold currentSubpage. now rewrite Hnone.
  - split; [|split; [exact Hstored|exact Hany]].
    intros tab. apply Hany. destruct tab; discriminate.
Qed.

(** The empty string is the one value that does not come back. *)
Example empty_value_reads_as_issues :
  currentSubpage (handleTabChange "" []) = "issues".
Proof. reflexivity. Qed.

Example runs_tab_round_trip :
  handleTabChange "runs" [("page", "2"); ("aiAnalysisSubpage", "issues")]
  = [("page", "2"); ("aiAnalysisSubpage", "runs")]
  /\ handleTabChange "issues" [("page", "2"); ("aiAnalysisSubpage", "runs")]
     = [("page", "2")].
Proof. split; reflexivity. Qed.

End SubpageFacts.

(** ** The entity repository: evidence requirements *)
Module RepositoryFacts.
Import Repository.

Lemma get_hypothesis_inv (container_id id : string) (s : Store) (h : HypothesisDoc.t) :
  get_hypothesis container_id id s = inr h ->
  exists c : AnalysisContainer.t,
    analyses s !! container_id = Some c /\ AnalysisContainer.hypotheses c !! id = Some h.
Proof.
  unfold get_hypothesis. destruct (analyses s !! container_id) as [c|]; simpl;
    [|discriminate].
  destruct (AnalysisContainer.hypotheses c !! id) as [h0|] eqn:Hh; [|discriminate].
  intros [= <-]. eauto.
Qed.

(** A successful update stores the appended evidence and leaves the
    statement, the testing plan and the creation time alone. *)
Lemma update_hypothesis_appends (container_id id : string)
    (status : option HypothesisStatus.t) (new_evidence : list Evidence.t) (now : Z)
    (s s' : Store) (h : HypothesisDoc.t) :
  get_hypothesis container_id id s = inr h ->
  update_hypothesis container_id id status new_evidence now s = inr s' ->
  exists h' : HypothesisDoc.t,
    get_hypothesis container_id id s' = inr h'
    /\ HypothesisDoc.evidence h' = HypothesisDoc.evidence h ++ new_evidence
    /\ HypothesisDoc.status h' = default (HypothesisDoc.status h) status
    /\ HypothesisDoc.statement h' = HypothesisDoc.statement h
    /\ HypothesisDoc.created_at h' = HypothesisDoc.created_at h
    /\ HypothesisDoc.updated_at h' = now.
Proof.
  intros (c & Hc & Hh)%get_hypothesis_inv. unfold update_hypothesis.
  rewrite Hc, Hh.
  destruct (needs_evidence status && _); [discriminate|].
  intros [= <-]. eexists. split.
  - unfold get_hypothesis; simpl. rewrite lookup_insert_eq; simpl.
    rewrite lookup_insert_eq. reflexivity.
  - repeat split.
Qed.

(** C2.  For a stored hypothesis, an update that sets the status to
    VALIDATED or REJECTED fails with [InvalidTransition] when the existing
    evidence together with the newly supplied evidence is empty, and
    otherwise succeeds: the stored document then has the requested status
    and the existing evidence followed by the new one. *)
Theorem update_hypothesis_needs_evidence (s : Store) (container_id id : string)
    (h : HypothesisDoc.t) (status : HypothesisStatus.t)
    (new_evidence : list Evidence.t) (now : Z) :
  get_hypothesis container_id id s = inr h ->
  status = HypothesisStatus.VALIDATED \/ status = HypothesisStatus.REJECTED ->
  (HypothesisDoc.evidence h ++ new_evidence = [] ->
   update_hypothesis container_id id (Some status) new_evidence now s
   = inl InvalidTransition)
  /\ (HypothesisDoc.evidence h ++ new_evidence <> [] ->
      exists (s' : Store) (h' : HypothesisDoc.t),
        update_hypothesis container_id id (Some status) new_evidence now s = inr s'
        /\ get_hypothesis container_id id s' = inr h'
        /\ HypothesisDoc.status h' = status
        /\ HypothesisDoc.evidence h' = HypothesisDoc.evidence h ++ new_evidence).
Proof.
  intros Hget Hstatus.
  assert (Hneeds : needs_evidence (Some status) = true)
    by (destruct Hstatus as [-> | ->]; reflexivity).
  destruct (get_hypothesis_inv _ _ _ _ Hget) as (c & Hc & Hh).
  split.
  - intros Hempty. unfold update_hypothesis. rewrite Hc, Hh, Hneeds.
    now rewrite bool_decide_eq_true_2.
  - intros Hsome.
    destruct (update_hypothesis container_id id (Some status) new_evidence now s)
      as [err|s'] eqn:Hupd.
    + exfalso. unfold update_hypothesis in Hupd. rewrite Hc, Hh, Hneeds in Hupd.
      now rewrite bool_decide_eq_false_2 in Hupd.
    + destruct (update_hypothesis_appends _ _ _ _ _ _ _ _ Hget Hupd)
        as (h' & Hget' & Hev & Hst & _).
      exists s', h'. repeat split; assumption.
Qed.

(** C2 at the hypothesis of the sample store, which has no evidence. *)
Lemma update_hypothesis_needs_evidence_witness :
  update_hypothesis "run-1" "h-1" (Some HypothesisStatus.VALIDATED) [] 20 Samples.store
  = inl InvalidTransition
  /\ exists (s' : Store) (h' : HypothesisDoc.t),
       update_hypothesis "run-1" "h-1" (Some HypothesisStatus.VALIDATED)
         [Samples.evidence] 20 Samples.store = inr s'
       /\ get_hypothesis "run-1" "h-1" s' = inr h'
       /\ HypothesisDoc.status h' = HypothesisStatus.VALIDATED
       /\ HypothesisDoc.evidence h' = [] ++ [Samples.evidence].
Proof.
  split.
  - apply (update_hypothesis_needs_evidence Samples.store "run-1" "h-1"
             Samples.hypothesis HypothesisStatus.VALIDATED [] 20);
      [reflexivity | left; reflexivity | reflexivity].
  - apply (update_hypothesis_needs_evidence Samples.store "run-1" "h-1"
             Samples.hypothesis HypothesisStatus.VALIDATED [Samples.evidence] 20);
      [reflexivity | left; reflexivity | discriminate].
Defined.

(** The scenario of section 8: the bare status change is refused, the one
    that comes with evidence is stored with the derived counters at 1. *)
Example validate_with_evidence_scenario :
  update_hypothesis "run-1" "h-1" (Some HypothesisStatus.VALIDATED) [] 20 Samples.store
  = inl InvalidTransition
  /\ match update_hypothesis "run-1" "h-1" (Some HypothesisStatus.VALIDATED)
             [Samples.evidence] 20 Samples.store with
     | inr s' =>
         match get_hypothesis "run-1" "h-1" s' with
         | inr h => Some (HypothesisDoc.status h, evidence_count h, supports_count h)
         | inl _ => None
         end
     | inl _ => None
     end
     = Some (HypothesisStatus.VALIDATED, 1%nat, 1%nat).
Proof. split; reflexivity. Qed.

(** C3.  [create_issue] fails with [ValidationError] when the evidence list
    is empty; with a single evidence entry it succeeds, the stored
    document's evidence is that entry alone, and the status of the new
    issue is OPEN. *)
Theorem create_issue_requires_evidence (s : Store)
    (experiment_id title description : string) (severity : Severity.t)
    (hypothesis_id source_run_id : option string) (now : Z) :
  create_issue experiment_id title description severity [] hypothesis_id
    source_run_id now s
  = inl ValidationError
  /\ (forall e : IssueEvidence.t,
        exists (id : string) (s' : Store) (doc : IssueDoc.t),
          create_issue experiment_id title description severity [e] hypothesis_id
            source_run_id now s
          = inr (id, s')
          /\ stored_issue experiment_id id s' = Some doc
          /\ IssueDoc.id doc = id
          /\ IssueDoc.evidence doc = [e]
          /\ IssueDoc.status doc = IssueStatus.OPEN).
Proof.
  split; [reflexivity|].
  intros e. unfold create_issue.
  rewrite bool_decide_eq_false_2 by discriminate.
  unfold get_or_create_umbrella.
  destruct (umbrellas s !! experiment_id) as [u|]; simpl;
    (do 3 eexists; split; [reflexivity|]);
    unfold stored_issue; simpl; rewrite lookup_insert_eq; simpl;
    rewrite lookup_insert_eq; repeat split.
Qed.

(** Issues that exist are kept: the new document gets an identifier that
    no issue of the umbrella container has. *)
Lemma create_issue_keeps_issues (s s' : Store)
    (experiment_id title description : string) (severity : Severity.t)
    (evidence : list IssueEvidence.t) (hypothesis_id source_run_id : option string)
    (now : Z) (id other : string) (doc : IssueDoc.t) :
  create_issue experiment_id title description severity evidence hypothesis_id
    source_run_id now s = inr (id, s') ->
  stored_issue experiment_id other s = Some doc ->
  other <> id /\ stored_issue experiment_id other s' = Some doc.
Proof.
  unfold create_issue, stored_issue, get_or_create_umbrella.
  destruct (bool_decide (evidence = [])); [discriminate|].
  destruct (umbrellas s !! experiment_id) as [u|]; simpl; [|discriminate].
  intros [= <- <-] Hother. simpl.
  assert (Hne : other <> fresh (dom (Umbrella.issues u))).
  { intros ->. apply (is_fresh (dom (Umbrella.issues u))).
    apply elem_of_dom. eauto. }
  split; [exact Hne|].
  rewrite lookup_insert_eq; simpl. rewrite lookup_insert_ne by congruence.
  exact Hother.
Qed.

(** The first issue of the sample store's experiment. *)
Example create_issue_first :
  match create_issue "exp-1" "Pool exhausted" "Pool too small" Severity.HIGH
          [Samples.issue_evidence] (Some "h-1") (Some "run-1") 30 Samples.store with
  | inr (id, s') =>
      (fun doc => (IssueDoc.evidence doc, IssueDoc.status doc, IssueDoc.created_at doc))
        <$> stored_issue "exp-1" id s'
  | inl _ => None
  end
  = Some ([Samples.issue_evidence], IssueStatus.OPEN, 30).
Proof. reflexivity. Qed.

End RepositoryFacts.

(** ** IssuesView: every numeric sort field, in both orders *)
Module SortOrderFacts.
Import IssuesView.

(** The order in which a sort order lists two keys. *)
Lemma comparator_asc_key lc (sortField : SortField) (a b : Issue.t) :
  sortField <> status ->
  comparator lc sortField asc a b = fieldKey sortField a - fieldKey sortField b.
Proof.
  destruct sortField; intros Hf; try congruence; reflexivity.
Qed.

(** The comparator orders by a signed key: the key itself for 'asc', its
    opposite for 'desc'. *)
Lemma comparator_signed_key lc (sortField : SortField) (sortOrder : SortOrder)
    (a b : Issue.t) :
  sortField <> status ->
  comparator lc sortField sortOrder a b
  = (match sortOrder with asc => 1 | desc => -1 end) * fieldKey sortField a
    - (match sortOrder with asc => 1 | desc => -1 end) * fieldKey sortField b.
Proof.
  intros Hf. destruct sortOrder.
  - rewrite comparator_asc_key by assumption. lia.
  - rewrite IssuesViewFacts.comparator_desc_key by assumption. lia.
Qed.

(** A list that is in order already is left as it is. *)
Lemma sort_of_sorted {A : Type} (key : A -> Z) (cmp : A -> A -> Z) (l : list A) :
  (forall a b, cmp a b = key a - key b) ->
  StronglySorted (fun a b => key a <= key b) l -> Js.sort cmp l = l.
Proof.
  intros Hcmp. induction 1 as [|x l Hs IH Hall]; simpl; [reflexivity|].
  rewrite IH. destruct l as [|y l']; simpl; [reflexivity|].
  rewrite Hcmp. apply Forall_cons in Hall as [Hxy _].
  destruct (Z.ltb_spec 0 (key x - key y)); [lia|reflexivity].
Qed.

(** The sorted list for a numeric field: a stable rearrangement in the
    order of the field. *)
Lemma numeric_sort_facts (localeCompare : string -> string -> Z)
    (data : ListIssuesResponse.t) (sortField : SortField) (sortOrder : SortOrder) :
  sortField <> status ->
  let shown := sortedIssues localeCompare (Some data) sortField sortOrder in
  Permutation shown (ListIssuesResponse.issues data)
  /\ StronglySorted
       (fun a b =>
          match sortOrder with
          | asc => fieldKey sortField a <= fieldKey sortField b
          | desc => fieldKey sortField b <= fieldKey sortField a
          end) shown
  /\ (forall n : Z,
        filter (fun i => fieldKey sortField i = n) shown
        = filter (fun i => fieldKey sortField i = n) (ListIssuesResponse.issues data)).
Proof.
  intros Hf. simpl. split; [apply JsFacts.sort_perm|].
  pose proof (fun a b => comparator_signed_key localeCompare sortField sortOrder a b Hf)
    as Hcmp.
  split.
  - eapply JsFacts.StronglySorted_weaken;
      [|apply (JsFacts.sort_sorted _ _ Hcmp)].
    simpl. intros a b. destruct sortOrder; lia.
  - intros n.
    pose proof (JsFacts.sort_filter _ _ Hcmp
                  ((match sortOrder with asc => 1 | desc => -1 end) * n)
                  (ListIssuesResponse.issues data)) as H.
    erewrite (list_filter_iff (fun i => fieldKey sortField i = n)),
             (list_filter_iff (fun i => fieldKey sortField i = n)
                _ (ListIssuesResponse.issues data));
      [exact H| |]; intros i; destruct sortOrder; lia.
Qed.

(** X1.  For the sort fields 'trace_count', 'severity' and 'created_at' and
    for both sort orders, the issues shown are a rearrangement of the issues
    of the response, ordered by the field in the chosen direction, and
    issues that agree on the field keep the order of the response. *)
Theorem sorted_by_any_numeric_field (localeCompare : string -> string -> Z)
    (data : ListIssuesResponse.t) (sortField : SortField) (sortOrder : SortOrder) :
  sortField <> status ->
  let shown := sortedIssues localeCompare (Some data) sortField sortOrder in
  Permutation shown (ListIssuesResponse.issues data)
  /\ StronglySorted
       (fun a b =>
          match sortOrder with
          | asc => fieldKey sortField a <= fieldKey sortField b
          | desc => fieldKey sortField b <= fieldKey sortField a
          end) shown
  /\ (forall n : Z,
        filter (fun i => fieldKey sortField i = n) shown
        = filter (fun i => fieldKey sortField i = n) (ListIssuesResponse.issues data)).
Proof. exact (numeric_sort_facts localeCompare data sortField sortOrder). Qed.

(** X1 on two issues listed newest first and sorted by creation time,
    oldest first. *)
Lemma sorted_by_any_numeric_field_witness :
  Permutation
    (sortedIssues Samples.ordinalCompare
       (Some (ListIssuesResponse.mk [Samples.newer; Samples.older])) created_at asc)
    [Samples.newer; Samples.older].
Proof.
  exact (proj1 (sorted_by_any_numeric_field Samples.ordinalCompare
                  (ListIssuesResponse.mk [Samples.newer; Samples.older])
                  created_at asc ltac:(discriminate))).
Defined.

(** X2.  A response that already lists the issues in the order of the
    chosen numeric field and direction is shown unchanged; hence sorting
    what is shown once more changes nothing. *)
Theorem sorted_response_shown_unchanged (localeCompare : string -> string -> Z)
    (data : ListIssuesResponse.t) (sortField : SortField) (sortOrder : SortOrder) :
  sortField <> status ->
  (StronglySorted
     (fun a b =>
        match sortOrder with
        | asc => fieldKey sortField a <= fieldKey sortField b
        | desc => fieldKey sortField b <= fieldKey sortField a
        end) (ListIssuesResponse.issues data) ->
   sortedIssues localeCompare (Some data) sortField sortOrder
   = ListIssuesResponse.issues data)
  /\ sortedIssues localeCompare
       (Some (ListIssuesResponse.mk
                (sortedIssues localeCompare (Some data) sortField sortOrder)))
       sortField sortOrder
     = sortedIssues localeCompare (Some data) sortField sortOrder.
Proof.
  intros Hf.
  pose proof (fun a b => comparator_signed_key localeCompare sortField sortOrder a b Hf)
    as Hcmp.
  split.
  - intros Hs. simpl. apply (sort_of_sorted _ _ _ Hcmp).
    eapply JsFacts.StronglySorted_weaken; [|exact Hs].
    simpl. intros a b. destruct sortOrder; lia.
  - simpl. apply (sort_of_sorted _ _ _ Hcmp), (JsFacts.sort_sorted _ _ Hcmp).
Qed.

(** X2 on the two sample issues, which tie on the trace count. *)
Lemma sorted_response_shown_unchanged_witness :
  sortedIssues Samples.ordinalCompare
    (Some (ListIssuesResponse.mk [Samples.older; Samples.newer])) trace_count desc
  = [Samples.older; Samples.newer].
Proof.
  refine (proj1 (sorted_response_shown_unchanged Samples.ordinalCompare
                   (ListIssuesResponse.mk [Samples.older; Samples.newer])
                   trace_count desc ltac:(discriminate)) _).
  repeat constructor; vm_compute; discriminate.
Defined.

Lemma StronglySorted_rev {A : Type} (R : A -> A -> Prop) (l : list A) :
  StronglySorted R l -> StronglySorted (fun a b => R b a) (rev l).
Proof.
  induction 1 as [|x l Hs IH Hall]; simpl; [constructor|].
  apply StronglySorted_app_2; [|exact IH|repeat constructor].
  intros a b Ha Hb. apply list_elem_of_singleton in Hb as ->.
  rewrite Forall_forall in Hall. apply Hall.
  apply list_elem_of_In, in_rev. now apply list_elem_of_In.
Qed.

(** Two arrangements of the same elements that list the same keys in the
    same places are equal when no key occurs twice. *)
Lemma perm_same_keys_eq {A : Type} (key : A -> Z) (l1 l2 : list A) :
  NoDup (key <$> l1) -> Permutation l1 l2 -> key <$> l1 = key <$> l2 -> l1 = l2.
Proof.
  revert l2. induction l1 as [|x l1 IH]; intros l2 Hnd Hperm Hkeys.
  - now apply Permutation_nil in Hperm.
  - destruct l2 as [|y l2]; [discriminate|].
    rewrite !fmap_cons in Hkeys. injection Hkeys as Hxy Hkeys.
    rewrite fmap_cons in Hnd. apply NoDup_cons in Hnd as [Hx Hnd].
    assert (Hin : x ∈ y :: l2) by (rewrite <- Hperm; left).
    apply elem_of_cons in Hin as [->|Hin].
    + f_equal. apply IH; [assumption| |assumption].
      now apply Permutation_cons_inv in Hperm.
    + exfalso. apply Hx. rewrite Hkeys. now apply list_elem_of_fmap_2.
Qed.

(** X3.  When no two issues of the response agree on the chosen numeric
    field, the ascending order is the descending order read backwards. *)
Theorem ascending_reverses_descending (localeCompare : string -> string -> Z)
    (data : ListIssuesResponse.t) (sortField : SortField) :
  sortField <> status ->
  NoDup (fieldKey sortField <$> ListIssuesResponse.issues data) ->
  sortedIssues localeCompare (Some data) sortField asc
  = rev (sortedIssues localeCompare (Some data) sortField desc).
Proof.
  intros Hf Hnd.
  destruct (numeric_sort_facts localeCompare data sortField asc Hf)
    as (Hpa & Hsa & _).
  destruct (numeric_sort_facts localeCompare data sortField desc Hf)
    as (Hpd & Hsd & _).
  cbv zeta in *. apply StronglySorted_rev in Hsd.
  apply (perm_same_keys_eq (fieldKey sortField)).
  - now rewrite Hpa.
  - now rewrite Hpa, <- Permutation_rev, Hpd.
  - apply (StronglySorted_unique Z.le).
    + apply (StronglySorted_fmap (fieldKey sortField) _ Z.le _ (fun _ _ H => H) Hsa).
    + apply (StronglySorted_fmap (fieldKey sortField) _ Z.le _ (fun _ _ H => H) Hsd).
    + now rewrite Hpa, <- Permutation_rev, Hpd.
Qed.

(** X3 on the two sample issues, created at different times. *)
Lemma ascending_reverses_descending_witness :
  sortedIssues Samples.ordinalCompare
    (Some (ListIssuesResponse.mk [Samples.older; Samples.newer])) created_at asc
  = rev (sortedIssues Samples.ordinalCompare
           (Some (ListIssuesResponse.mk [Samples.older; Samples.newer])) created_at desc).
Proof.
  refine (ascending_reverses_descending Samples.ordinalCompare
            (ListIssuesResponse.mk [Samples.older; Samples.newer]) created_at
            ltac:(discriminate) _).
  apply (NoDup_cons_2 (fieldKey created_at Samples.older)); [|apply NoDup_singleton].
  intros Hin. apply list_elem_of_singleton in Hin. discriminate Hin.
Defined.

(** With a tie the two orders are not mirror images: both keep the tied
    issues in the order of the response. *)
Example tie_is_not_reversed :
  sortedIssues Samples.ordinalCompare
    (Some (ListIssuesResponse.mk [Samples.older; Samples.newer])) trace_count asc
  = sortedIssues Samples.ordinalCompare
      (Some (ListIssuesResponse.mk [Samples.older; Samples.newer])) trace_count desc.
Proof. reflexivity. Qed.

End SortOrderFacts.

(** ** The hooks: identifiers, query keys, and what resolves *)
Module HookFacts.
Import AgenticInsightsApi.

Lemma present_inv (id : option string) :
  present id = true -> exists s : string, id = Some s /\ s <> "".
Proof.
  destruct id as [s|]; simpl; [|discriminate].
  unfold present; simpl. intros H. exists s. split; [reflexivity|].
  intros ->. discriminate H.
Qed.

Lemma preview_request_lookup (key : string) (id : option string)
    (maxTraces : option Z) (k : string) (v : Js.value) :
  preview_request key id maxTraces !! k = Some v ->
  k = "max_traces" \/ (k = key /\ v = Js.of_option Js.Str id).
Proof.
  unfold preview_request, Js.spread, Js.and. intros H.
  apply lookup_union_Some_raw in H as [H|[_ H]].
  - left. destruct maxTraces as [n|]; simpl in H; [|now rewrite lookup_empty in H].
    destruct (n =? 0); simpl in H; [now rewrite lookup_empty in H|].
    now apply lookup_singleton_Some in H as [<- _].
  - right. now apply lookup_singleton_Some in H as [<- <-].
Qed.

(** X4.  Whatever the hook and its options, a query that is enabled sends
    a body in which every identifier field is a non-empty string: no
    request leaves with a missing or empty experiment, run, hypothesis or
    issue identifier. *)
Theorem enabled_query_has_identifiers (call : HookCall) :
  Query.enabled (query call) = true ->
  exists m : gmap string Js.value,
    request_body (query call) = Js.Obj m
    /\ forall (k : string) (v : Js.value),
         m !! k = Some v -> k <> "max_traces" ->
         exists s : string, v = Js.Str s /\ s <> "".
Proof.
  destruct call; simpl; intros Hen;
    repeat (apply andb_prop in Hen as [Hen ?]);
    repeat match goal with
           | H : present _ = true |- _ =>
               apply present_inv in H as (? & -> & ?)
           end;
    (eexists; split; [reflexivity|]); intros k v Hk Hmax.
  1-3, 6-7: apply lookup_singleton_Some in Hk as [_ <-]; eauto.
  - apply lookup_insert_Some in Hk as [[_ <-]|[_ Hk]]; [eauto|].
    apply lookup_singleton_Some in Hk as [_ <-]; eauto.
  - apply preview_request_lookup in Hk as [->|[_ ->]]; [congruence|eauto].
  - apply preview_request_lookup in Hk as [->|[_ ->]]; [congruence|eauto].
Qed.

(** X4 on the issues preview of experiment 123 with a limit of 5. *)
Lemma enabled_query_has_identifiers_witness :
  exists m : gmap string Js.value,
    request_body (query (IssuesPreview (Some "123") (Some 5) None)) = Js.Obj m
    /\ forall (k : string) (v : Js.value),
         m !! k = Some v -> k <> "max_traces" ->
         exists s : string, v = Js.Str s /\ s <> "".
Proof.
  apply (enabled_query_has_identifiers (IssuesPreview (Some "123") (Some 5) None)).
  reflexivity.
Defined.

(** A missing identifier, an empty one, or [enabled: false] switch the
    query off. *)
Example disabled_queries :
  Query.enabled (query (IssueGet None None)) = false
  /\ Query.enabled (query (HypothesisGet (Some "run-1") (Some "") None)) = false
  /\ Query.enabled
       (query (AnalysesList (Some "123")
                 (Some (Options.mk (Some false) None None)))) = false.
Proof. repeat split. Qed.

Lemma of_option_Str_inj (a b : option string) :
  Js.of_option Js.Str a = Js.of_option Js.Str b -> a = b.
Proof. destruct a, b; simpl; congruence. Qed.

Lemma of_option_Num_inj (a b : option Z) :
  Js.of_option Js.Num a = Js.of_option Js.Num b -> a = b.
Proof. destruct a, b; simpl; congruence. Qed.

(** X5.  The query key determines the request: two hook calls with the
    same query key, whichever hooks and options they come from, make the
    same call of [fetch] and treat its answer alike, so a cached entry is
    never shared between different requests. *)
Theorem query_key_determines_request (call1 call2 : HookCall) (fetch : Fetch) :
  Query.queryKey (query call1) = Query.queryKey (query call2) ->
  Query.queryFn (query call1) fetch = Query.queryFn (query call2) fetch.
Proof.
  destruct call1, call2; simpl; intros Hkey; try discriminate Hkey;
    injection Hkey as Hkey;
    repeat match goal with
           | H : Js.of_option Js.Str _ = Js.of_option Js.Str _ |- _ =>
               apply of_option_Str_inj in H; subst
           | H : Js.of_option Js.Num _ = Js.of_option Js.Num _ |- _ =>
               apply of_option_Num_inj in H; subst
           end;
    reflexivity.
Qed.

(** X5 on two calls for the hypotheses of one run, with and without
    options. *)
Lemma query_key_determines_request_witness :
  Query.queryFn (query (HypothesesList (Some "run-1") None))
    (respond {| ok := true; statusText := "OK"; json := Js.Resolved Js.Null |})
  = Query.queryFn
      (query (HypothesesList (Some "run-1")
                (Some (Options.mk None (Some Off) (Some true)))))
      (respond {| ok := true; statusText := "OK"; json := Js.Resolved Js.Null |}).
Proof.
  apply (query_key_determines_request (HypothesesList (Some "run-1") None)
           (HypothesesList (Some "run-1")
              (Some (Options.mk None (Some Off) (Some true))))).
  reflexivity.
Defined.

(** X6.  The request helper resolves only with the JSON document of a
    response that is OK: a rejected [fetch], a response that is not OK and
    a body that is not JSON never yield a value. *)
Theorem postAgenticApi_resolves_only_on_ok (fetch : Fetch) (endpoint : string)
    (request v : Js.value) :
  postAgenticApi fetch endpoint request = Js.Resolved v ->
  exists response : Response,
    fetch (AGENTIC_API_BASE +:+ endpoint)
      {| method := "POST";
         headers := {[ "Content-Type" := "application/json" ]};
         body := request |}
    = Js.Resolved response
    /\ ok response = true
    /\ json response = Js.Resolved v.
Proof.
  unfold postAgenticApi.
  destruct (fetch _ _) as [response|e]; [|discriminate].
  destruct (ok response) eqn:Hok; simpl.
  - intros Hjson. eauto.
  - destruct (Js.catch (json response) (Js.Obj ∅)) as [errorData|e]; [|discriminate].
    destruct (Js.get errorData "message"); discriminate.
Qed.

(** X6 on an OK response that carries an empty list of issues. *)
Lemma postAgenticApi_resolves_only_on_ok_witness :
  exists response : Response,
    respond {| ok := true; statusText := "OK";
               json := Js.Resolved (Js.Obj {[ "issues" := Js.Arr [] ]}) |}
      (AGENTIC_API_BASE +:+ "/issues/list")
      {| method := "POST";
         headers := {[ "Content-Type" := "application/json" ]};
         body := Js.Obj {[ "experiment_id" := Js.Str "123" ]} |}
    = Js.Resolved response
    /\ ok response = true
    /\ json response = Js.Resolved (Js.Obj {[ "issues" := Js.Arr [] ]}).
Proof.
  apply (postAgenticApi_resolves_only_on_ok
           (respond {| ok := true; statusText := "OK";
                       json := Js.Resolved (Js.Obj {[ "issues" := Js.Arr [] ]}) |})
           "/issues/list" (Js.Obj {[ "experiment_id" := Js.Str "123" ]})).
  reflexivity.
Defined.

End HookFacts.

(** ** TracePreview: what the input and output cells show *)
Module PreviewCellFacts.
Import TracePreview.

Lemma truthy_not_null (v : Js.value) :
  Js.truthy v = true -> v <> Js.Null /\ v <> Js.Undefined.
Proof. destruct v; simpl; intros H; split; congruence. Qed.

(** The text of a value that is neither [null] nor [undefined], with the
    default limit, has at most 153 characters. *)
Lemma formatValue_default_bound JSON_stringify String_ (value : Js.value) :
  value <> Js.Null -> value <> Js.Undefined ->
  (String.length (formatValue JSON_stringify String_ value None) <= 153)%nat.
Proof.
  intros Hnull Hundef.
  change (formatValue JSON_stringify String_ value None)
    with (formatValue JSON_stringify String_ value (Some 150)).
  rewrite TracePreviewFacts.formatValue_unfold by assumption.
  destruct (Z.ltb_spec 150
              (Z.of_nat (String.length (rendering JSON_stringify String_ value)))).
  - rewrite TracePreviewFacts.length_append,
      TracePreviewFacts.length_substring_0 by lia. simpl. lia.
  - lia.
Qed.

(** X7.  A preview cell shows either its placeholder or a text of at most
    153 characters.  The placeholder ('No input', 'No output') stands for a
    trace without data or spans, for spans that all have a parent, and for
    a root span whose field is missing or falsy (also 0, the empty string
    and false); [formatValue] is only ever applied to a truthy value, so
    its answer for [null] never appears in a cell. *)
Theorem preview_cell_is_placeholder_or_short
    (JSON_stringify : Js.value -> Js.Promise string) (String_ : Js.value -> string)
    (traceData : option TraceData) :
  match inputCell JSON_stringify String_ traceData with
  | Placeholder p =>
      p = "No input" /\ Js.truthy (inputs (rootSpan traceData)) = false
  | Text t =>
      (String.length t <= 153)%nat
      /\ Js.truthy (inputs (rootSpan traceData)) = true
      /\ t = formatValue JSON_stringify String_ (inputs (rootSpan traceData)) (Some 150)
  end
  /\ match outputCell JSON_stringify String_ traceData with
     | Placeholder p =>
         p = "No output" /\ Js.truthy (outputs (rootSpan traceData)) = false
     | Text t =>
         (String.length t <= 153)%nat
         /\ Js.truthy (outputs (rootSpan traceData)) = true
         /\ t = formatValue JSON_stringify String_ (outputs (rootSpan traceData))
                  (Some 150)
     end.
Proof.
  unfold inputCell, outputCell. split.
  - destruct (Js.truthy (inputs (rootSpan traceData))) eqn:Ht; [|split; reflexivity].
    split; [|split; reflexivity].
    apply truthy_not_null in Ht as [? ?]. now apply formatValue_default_bound.
  - destruct (Js.truthy (outputs (rootSpan traceData))) eqn:Ht; [|split; reflexivity].
    split; [|split; reflexivity].
    apply truthy_not_null in Ht as [? ?]. now apply formatValue_default_bound.
Qed.

(** The root span is the first span without a parent; an input of 0 is
    shown as missing. *)
Example zero_input_shows_placeholder :
  inputCell Samples.JSON_stringify Samples.String_
    (Some {| spans := Some [ {[ "parent_id" := Js.Str "s-1"; "inputs" := Js.Str "child" ]};
                             {[ "inputs" := Js.Num 0; "outputs" := Js.Str "done" ]};
                             {[ "inputs" := Js.Str "second root" ]} ] |})
  = Placeholder "No input"
  /\ outputCell Samples.JSON_stringify Samples.String_
       (Some {| spans := Some [ {[ "parent_id" := Js.Str "s-1"; "inputs" := Js.Str "child" ]};
                                {[ "inputs" := Js.Num 0; "outputs" := Js.Str "done" ]};
                                {[ "inputs" := Js.Str "second root" ]} ] |})
     = Text "done".
Proof. split; reflexivity. Qed.

End PreviewCellFacts.

(** ** TraceEvidenceDrawer: fetching a trace *)
Module FetchTraceFacts.
Import AgenticInsightsApi TraceEvidenceDrawer.

(** X8.  [fetchTrace] answers a response that is not OK with the error
    'Failed to fetch trace: <statusText>' whatever the body is, without
    reading it; and when it resolves, the response was OK, its body was a
    JSON document other than [null], and the value is the [trace] field of
    that document ([undefined] when the document has none). *)
Theorem fetchTrace_outcomes (fetch : FetchGet) (traceId : string) :
  (forall response : Response,
     fetch ("/ajax-api/2.0/mlflow/traces/get?request_id=" +:+ traceId)
     = Js.Resolved response ->
     ok response = false ->
     fetchTrace fetch traceId
     = Js.Rejected (Js.Error (Js.Str ("Failed to fetch trace: " +:+ statusText response))))
  /\ (forall v : Js.value,
        fetchTrace fetch traceId = Js.Resolved v ->
        exists (response : Response) (data : Js.value),
          fetch ("/ajax-api/2.0/mlflow/traces/get?request_id=" +:+ traceId)
          = Js.Resolved response
          /\ ok response = true
          /\ json response = Js.Resolved data
          /\ data <> Js.Null /\ data <> Js.Undefined
          /\ v = match data with
                 | Js.Obj m => default Js.Undefined (m !! "trace")
                 | _ => Js.Undefined
                 end).
Proof.
  unfold fetchTrace. split.
  - intros response -> ->. reflexivity.
  - intros v. destruct (fetch _) as [response|e]; [|discriminate].
    destruct (ok response) eqn:Hok; simpl; [|discriminate].
    destruct (json response) as [data|e] eqn:Hjson; [|discriminate].
    intros Hget. exists response, data.
    destruct data; simpl in Hget; try discriminate;
      injection Hget as <-; repeat split; congruence.
Qed.

(** An OK response without a [trace] field resolves to [undefined]; an OK
    response with the document [null] fails on the property read. *)
Example fetchTrace_edge_cases :
  fetchTrace (fun _ => Js.Resolved {| ok := true; statusText := "OK";
                                      json := Js.Resolved (Js.Obj ∅) |}) "tr-1"
  = Js.Resolved Js.Undefined
  /\ fetchTrace (fun _ => Js.Resolved {| ok := true; statusText := "OK";
                                         json := Js.Resolved Js.Null |}) "tr-1"
     = Js.Rejected (Js.TypeError "Cannot read properties of null (reading 'trace')")
  /\ fetchTrace (fun _ => Js.Resolved {| ok := false; statusText := "Not Found";
                                         json := Js.Resolved Js.Null |}) "tr-1"
     = Js.Rejected (Js.Error (Js.Str "Failed to fetch trace: Not Found")).
Proof. repeat split. Qed.

End FetchTraceFacts.

(** ** RunsView: relative times, the selected run, counts and labels *)
Module RunsTableFacts.
Import RunsView.

(** X9.  The 'Created' cell of the runs table reads 'Just now' for a run
    created less than a minute ago (or in the future), the whole minutes
    1..59 followed by 'm ago' below one hour, the whole hours 1..23 followed
    by 'h ago' below one day, and the locale's date from one day on. *)
Theorem formatTimestamp_ranges (toLocaleDateString : Z -> string) (now timestamp : Z) :
  let diff := now - timestamp in
  let text := formatTimestamp toLocaleDateString now timestamp in
  (diff < 60000 -> text = "Just now")
  /\ (60000 <= diff < 3600000 ->
      exists m : Z,
        1 <= m <= 59 /\ m * 60000 <= diff < (m + 1) * 60000
        /\ text = pretty m +:+ "m ago")
  /\ (3600000 <= diff < 86400000 ->
      exists h : Z,
        1 <= h <= 23 /\ h * 3600000 <= diff < (h + 1) * 3600000
        /\ text = pretty h +:+ "h ago")
  /\ (86400000 <= diff -> text = toLocaleDateString timestamp).
Proof.
  cbv zeta. unfold formatTimestamp.
  set (diff := now - timestamp). set (minutes := diff / 60000).
  assert (Hm : 60000 * minutes <= diff < 60000 * minutes + 60000).
  { pose proof (Z.div_mod diff 60000 ltac:(lia)).
    pose proof (Z.mod_pos_bound diff 60000 ltac:(lia)). subst minutes. lia. }
  assert (Hh : 60 * (minutes / 60) <= minutes < 60 * (minutes / 60) + 60).
  { pose proof (Z.div_mod minutes 60 ltac:(lia)).
    pose proof (Z.mod_pos_bound minutes 60 ltac:(lia)). lia. }
  split; [|split; [|split]].
  - intros Hd. destruct (Z.ltb_spec minutes 1); [reflexivity|lia].
  - intros Hd. exists minutes.
    destruct (Z.ltb_spec minutes 1); [lia|].
    destruct (Z.ltb_spec minutes 60); [|lia].
    repeat split; lia.
  - intros Hd. exists (minutes / 60).
    destruct (Z.ltb_spec minutes 1); [lia|].
    destruct (Z.ltb_spec minutes 60); [lia|].
    destruct (Z.ltb_spec minutes 1440); [|lia].
    repeat split; lia.
  - intros Hd.
    destruct (Z.ltb_spec minutes 1); [lia|].
    destruct (Z.ltb_spec minutes 60); [lia|].
    destruct (Z.ltb_spec minutes 1440); [lia|reflexivity].
Qed.

Example formatTimestamp_samples :
  formatTimestamp (fun _ => "9/21/2025") 10000000 9999000 = "Just now"
  /\ formatTimestamp (fun _ => "9/21/2025") 10000000 9880001 = "1m ago"
  /\ formatTimestamp (fun _ => "9/21/2025") 10000000 6400000 = "1h ago"
  /\ formatTimestamp (fun _ => "9/21/2025") 10000000 10000500 = "Just now"
  /\ formatTimestamp (fun _ => "9/21/2025") 100000000 10000000 = "9/21/2025".
Proof. repeat split. Qed.

(** X10.  Once a run is selected, no later response replaces or refreshes
    it, whatever the response lists; while nothing is selected, the
    selection becomes the first run of the first response that lists any. *)
Theorem selection_is_kept (responses : list (option (list Analysis.t))) :
  (forall run : Analysis.t, afterResponses (Some run) responses = Some run)
  /\ afterResponses None responses = head (concat (default [] <$> responses)).
Proof.
  assert (Hkept : forall (l : list (option (list Analysis.t))) run,
             afterResponses (Some run) l = Some run).
  { induction l as [|data l IH]; intros run; [reflexivity|].
    unfold afterResponses in *; simpl. apply IH. }
  split; [apply Hkept|].
  induction responses as [|data l IH]; [reflexivity|].
  unfold afterResponses in *; simpl.
  destruct data as [[|first rest]|]; simpl; [exact IH| |exact IH].
  apply (Hkept l first).
Qed.

(** A run that was ACTIVE when selected stays the selection, and so the
    panel keeps its 2 second polling, after a response that reports the
    run as COMPLETED. *)
Example selection_keeps_the_old_status :
  let active := Analysis.mk "run-1" "A" None AnalysisStatus.ACTIVE None None 1 1 None in
  let completed := Analysis.mk "run-1" "A" None AnalysisStatus.COMPLETED None None 1 9 None in
  afterResponses None [None; Some [active]; Some [completed]] = Some active
  /\ AgenticInsightsApi.Query.refetchInterval
       (HypothesisPanel_query "run-1" (isActive active))
     = Some (AgenticInsightsApi.Every 2000).
Proof. split; reflexivity. Qed.

(** X11.  The number of evidence items in the header of a hypothesis
    agrees with the number of evidence entries listed in its details
    exactly when [evidence_count] is absent, 0, or the length of the
    evidence list. *)
Theorem header_count_agrees_with_list (hypothesis : HypothesisT.t) :
  evidence_items hypothesis = Z.of_nat (length (listed_evidence hypothesis))
  <-> (HypothesisT.evidence_count hypothesis = None
       \/ HypothesisT.evidence_count hypothesis = Some 0
       \/ HypothesisT.evidence_count hypothesis
          = Some (Z.of_nat (length (listed_evidence hypothesis)))).
Proof.
  unfold evidence_items, evidence_length, listed_evidence, Js.num_or.
  destruct (HypothesisT.evidence hypothesis) as [l|]; simpl;
    destruct (HypothesisT.evidence_count hypothesis) as [n|]; simpl.
  - destruct (Z.eqb_spec n 0) as [->|Hn].
    + destruct (Z.eqb_spec (Z.of_nat (length l)) 0) as [->|]; split; auto.
    + split; [intros ->; auto|]. intros [H|[H|H]]; congruence.
  - destruct (Z.eqb_spec (Z.of_nat (length l)) 0) as [->|]; split; auto.
  - destruct (Z.eqb_spec n 0) as [->|Hn]; split; auto.
    + intros ->. auto.
    + intros [H|[H|H]]; congruence.
  - split; auto.
Qed.

(** A count of 2 beside a list of 3 entries. *)
Example header_count_disagrees :
  let h := HypothesisT.mk "h-1" "s" None HypothesisStatus.TESTING
             (Some [Samples.evidence; Samples.evidence; Samples.evidence]) (Some 2)
             None None None None 1 1 None in
  evidence_items h = 2 /\ length (listed_evidence h) = 3%nat.
Proof. split; reflexivity. Qed.

Lemma length_substring_le (n : nat) (s : string) :
  (String.length (String.substring 0 n s) <= n)%nat.
Proof.
  revert s. induction n as [|n IH]; intros s.
  - destruct s; simpl; lia.
  - destruct s as [|c s]; simpl; [lia|]. specialize (IH s). lia.
Qed.

Lemma substring_short (n : nat) (s : string) :
  (String.length s <= n)%nat -> String.substring 0 n s = s.
Proof.
  revert s. induction n as [|n IH]; intros s Hs.
  - destruct s; simpl in *; [reflexivity|lia].
  - destruct s as [|c s]; simpl in *; [reflexivity|]. rewrite IH; [reflexivity|lia].
Qed.

(** X12.  The run id shown under a run's name and in the 'Source Run' cell
    of an issue never takes more than 11 characters: the first 8 characters
    of the id and three dots (after the whole id when it is shorter); an
    issue without a source run, or with an empty one, shows a dash. *)
Theorem run_id_labels (analysis : Analysis.t) (issue : Issue.t) :
  ((String.length (runIdLabel analysis) <= 11)%nat
   /\ ((String.length (Analysis.run_id analysis) <= 8)%nat ->
       runIdLabel analysis = Analysis.run_id analysis +:+ "..."))
  /\ (String.length (IssuesView.sourceRunCell issue) <= 11)%nat
  /\ (IssuesView.sourceRunCell issue = "-"
      <-> Issue.source_run_id issue = None \/ Issue.source_run_id issue = Some "").
Proof.
  split; [split|split].
  - unfold runIdLabel. rewrite TracePreviewFacts.length_append.
    pose proof (length_substring_le 8 (Analysis.run_id analysis)). simpl. lia.
  - intros Hs. unfold runIdLabel. now rewrite substring_short.
  - unfold IssuesView.sourceRunCell. destruct (Issue.source_run_id issue) as [id|];
      [|simpl; lia].
    destruct (String.eqb id ""); [simpl; lia|].
    rewrite TracePreviewFacts.length_append.
    pose proof (length_substring_le 8 id). simpl. lia.
  - unfold IssuesView.sourceRunCell. destruct (Issue.source_run_id issue) as [id|];
      [|split; auto].
    destruct (String.eqb_spec id "") as [->|Hid]; [split; auto|].
    split.
    + intros H. apply (f_equal String.length) in H.
      rewrite TracePreviewFacts.length_append in H. simpl in H. lia.
    + intros [H|H]; congruence.
Qed.

End RunsTableFacts.

(** ** InsightsPageAIAnalysis: what a tab change does to the URL *)
Module TabChangeFacts.
Import InsightsPageAIAnalysis.

Lemma delete_others (name : string) (params : URLSearchParams.t) :
  filter (fun p : string * string => p.1 <> name) (URLSearchParams.delete name params)
  = filter (fun p : string * string => p.1 <> name) params.
Proof.
  unfold URLSearchParams.t in *.
  induction params as [|[k v] rest IH];
    cbn [URLSearchParams.delete]; [reflexivity|].
  destruct (String.eqb_spec k name) as [->|Hk]; cbv iota;
    rewrite !filter_cons, IH; repeat case_decide; simpl in *; try done; congruence.
Qed.

Lemma set_others (name value : string) (params : URLSearchParams.t) :
  filter (fun p : string * string => p.1 <> name) (URLSearchParams.set name value params)
  = filter (fun p : string * string => p.1 <> name) params.
Proof.
  unfold URLSearchParams.t in *.
  induction params as [|[k v] rest IH]; cbn [URLSearchParams.set].
  - rewrite filter_cons. case_decide; simpl in *; try done; congruence.
  - destruct (String.eqb_spec k name) as [->|Hk]; cbv iota; rewrite !filter_cons.
    + rewrite delete_others. repeat case_decide; simpl in *; try done; congruence.
    + rewrite IH. repeat case_decide; simpl in *; try done; congruence.
Qed.

Lemma delete_none (name : string) (params : URLSearchParams.t) :
  filter (fun p : string * string => p.1 = name) (URLSearchParams.delete name params) = [].
Proof.
  unfold URLSearchParams.t in *.
  induction params as [|[k v] rest IH];
    cbn [URLSearchParams.delete]; [reflexivity|].
  destruct (String.eqb_spec k name) as [->|Hk]; cbv iota; [exact IH|].
  rewrite filter_cons, IH. case_decide; simpl in *; try done; congruence.
Qed.

Lemma set_one (name value : string) (params : URLSearchParams.t) :
  filter (fun p : string * string => p.1 = name) (URLSearchParams.set name value params)
  = [(name, value)].
Proof.
  unfold URLSearchParams.t in *.
  induction params as [|[k v] rest IH]; cbn [URLSearchParams.set].
  - rewrite filter_cons. case_decide; simpl in *; try done; congruence.
  - destruct (String.eqb_spec k name) as [->|Hk]; cbv iota; rewrite filter_cons.
    + rewrite delete_none. case_decide; simpl in *; try done; congruence.
    + rewrite IH. case_decide; simpl in *; try done; congruence.
Qed.

Lemma delete_delete (name : string) (params : URLSearchParams.t) :
  URLSearchParams.delete name (URLSearchParams.delete name params)
  = URLSearchParams.delete name params.
Proof.
  induction params as [|[k v] rest IH];
    cbn [URLSearchParams.set URLSearchParams.delete]; [reflexivity|].
  destruct (String.eqb k name) eqn:Hk; simpl; [exact IH|]. now rewrite Hk, IH.
Qed.

Lemma set_set (name value : string) (params : URLSearchParams.t) :
  URLSearchParams.set name value (URLSearchParams.set name value params)
  = URLSearchParams.set name value params.
Proof.
  induction params as [|[k v] rest IH];
    cbn [URLSearchParams.set URLSearchParams.delete].
  - now rewrite String.eqb_refl.
  - destruct (String.eqb k name) eqn:Hk; simpl; rewrite Hk.
    + now rewrite delete_delete.
    + now rewrite IH.
Qed.

(** X13.  A tab change touches nothing but the [aiAnalysisSubpage]
    parameter: the other parameters of the URL keep their values and their
    order. *)
Theorem tab_change_keeps_other_parameters (value : string)
    (searchParams : URLSearchParams.t) :
  filter (fun p : string * string => p.1 <> AI_ANALYSIS_SUBPAGE_PARAM)
    (handleTabChange value searchParams)
  = filter (fun p : string * string => p.1 <> AI_ANALYSIS_SUBPAGE_PARAM) searchParams.
Proof.
  unfold handleTabChange, setSearchParams, tabChangeUpdater.
  destruct (String.eqb value "issues"); [apply delete_others|apply set_others].
Qed.

(** X14.  After a tab change the URL holds the [aiAnalysisSubpage]
    parameter at most once, however often it occurred before: not at all
    for 'issues', and once, with the selected value, for any other tab. *)
Theorem tab_change_leaves_one_entry (value : string) (searchParams : URLSearchParams.t) :
  filter (fun p : string * string => p.1 = AI_ANALYSIS_SUBPAGE_PARAM)
    (handleTabChange value searchParams)
  = if String.eqb value "issues" then []
    else [(AI_ANALYSIS_SUBPAGE_PARAM, value)].
Proof.
  unfold handleTabChange, setSearchParams, tabChangeUpdater.
  destruct (String.eqb value "issues"); [apply delete_none|apply set_one].
Qed.

(** X15.  Selecting the same tab twice gives the URL of selecting it once,
    and of two tab changes in a row the later one decides the subpage. *)
Theorem tab_change_idempotent_last_wins (value : string)
    (searchParams : URLSearchParams.t) :
  handleTabChange value (handleTabChange value searchParams)
  = handleTabChange value searchParams
  /\ (forall earlier : string,
        currentSubpage (handleTabChange value (handleTabChange earlier searchParams))
        = currentSubpage (handleTabChange value searchParams)).
Proof.
  unfold handleTabChange, setSearchParams, tabChangeUpdater, currentSubpage.
  destruct (String.eqb value "issues") eqn:Hv.
  - split; [apply delete_delete|]. intros earlier.
    now rewrite !SubpageFacts.get_delete.
  - split; [apply set_set|]. intros earlier.
    now rewrite !SubpageFacts.get_set.
Qed.

Example duplicates_are_collapsed :
  handleTabChange "runs"
    [("aiAnalysisSubpage", "issues"); ("page", "2"); ("aiAnalysisSubpage", "x")]
  = [("aiAnalysisSubpage", "runs"); ("page", "2")].
Proof. reflexivity. Qed.

End TabChangeFacts.

(** ** The development server script: waiting for the tracking server *)
Module DevServerFacts.
Import DevServerScript.

(** X16.  [wait_server_ready] makes at most 5 probes and sleeps at most 15
    seconds altogether; it returns 0 exactly when one of the first 5 probes
    succeeds, right after the first probe that does, and 1 otherwise. *)
Theorem wait_server_ready_bounds (curl : nat -> bool) :
  let outcome := wait_server_ready curl in
  (status outcome = 0 <-> exists n : nat, (n < 5)%nat /\ curl n = true)
  /\ (status outcome = 0 \/ status outcome = 1)
  /\ (probes outcome <= 5)%nat
  /\ 0 <= slept outcome <= 15
  /\ (status outcome = 0 ->
      curl (pred (probes outcome)) = true
      /\ forall n : nat, (n < pred (probes outcome))%nat -> curl n = false)
  /\ (status outcome = 1 -> probes outcome = 5%nat /\ slept outcome = 15).
Proof.
  cbv zeta. unfold wait_server_ready, backoffs; simpl.
  assert (Hcases : forall n : nat, (n < 5)%nat ->
            n = 0%nat \/ n = 1%nat \/ n = 2%nat \/ n = 3%nat \/ n = 4%nat) by lia.
  destruct (curl 0%nat) eqn:H0; [|destruct (curl 1%nat) eqn:H1;
    [|destruct (curl 2%nat) eqn:H2; [|destruct (curl 3%nat) eqn:H3;
      [|destruct (curl 4%nat) eqn:H4]]]]; simpl.
  1-5: split;
       [split; [intros _|reflexivity];
        match goal with
        | H : _ ?i = true |- _ => exists i; split; [lia|exact H]
        end|];
       split; [left; reflexivity|]; split; [lia|]; split; [lia|];
       split; [|discriminate]; intros _; split; [assumption|];
       intros n Hn; destruct (Hcases n ltac:(lia)) as [->|[->|[->|[->| ->]]]];
       (assumption || lia).
  split.
  - split; [discriminate|].
    intros (n & Hn & Hc).
    destruct (Hcases n Hn) as [->|[->|[->|[->| ->]]]]; congruence.
  - split; [right; reflexivity|]. split; [lia|]. split; [lia|].
    split; [discriminate|]. intros _. split; reflexivity.
Qed.

(** The server answers the fourth probe: four probes, 0 + 1 + 2 + 4
    seconds. *)
Example wait_server_ready_fourth_probe :
  wait_server_ready (fun n => Nat.eqb n 3) = {| status := 0; slept := 7; probes := 4 |}.
Proof. reflexivity. Qed.

End DevServerFacts.

(** ** IssuesView: sorting by status *)
Module StatusSortFacts.
Import IssuesView.

Section ByComparator.
Context {A : Type} (cmp : A -> A -> Z).
Hypothesis cmp_asym : forall a b, 0 < cmp a b -> cmp b a <= 0.
Hypothesis cmp_trans : forall a b c, cmp a b <= 0 -> cmp b c <= 0 -> cmp a c <= 0.

Lemma sort_insert_ordered (x : A) (l : list A) :
  StronglySorted (fun a b => cmp a b <= 0) l ->
  StronglySorted (fun a b => cmp a b <= 0) (Js.sort_insert cmp x l).
Proof.
  induction 1 as [|y l Hs IH Hall]; simpl.
  - repeat constructor.
  - destruct (Z.ltb_spec 0 (cmp x y)) as [Hlt|Hge].
    + constructor; [exact IH|].
      rewrite Forall_forall. intros z Hz.
      rewrite JsFacts.sort_insert_perm in Hz.
      apply elem_of_cons in Hz as [->|Hz]; [now apply cmp_asym|].
      rewrite Forall_forall in Hall. now apply Hall.
    + constructor; [now constructor|].
      constructor; [exact Hge|].
      eapply Forall_impl; [exact Hall|].
      intros z Hz. simpl in *. now apply (cmp_trans x y z).
Qed.

Lemma sort_ordered (l : list A) :
  StronglySorted (fun a b => cmp a b <= 0) (Js.sort cmp l).
Proof.
  induction l as [|x l IH]; simpl; [constructor|].
  now apply sort_insert_ordered.
Qed.
End ByComparator.

(** X17.  With a collation that orders the four status names
    consistently (it never puts two names each before the other, and is
    transitive), the issues sorted by status are a rearrangement of the
    response in which, in ascending order, no issue comes after one whose
    status the collation puts later, and the other way round in descending
    order. *)
Theorem sorted_by_status (localeCompare : string -> string -> Z)
    (data : ListIssuesResponse.t) (sortOrder : SortOrder) :
  let lc := fun a b : IssueStatus.t =>
              localeCompare (IssueStatus.to_string a) (IssueStatus.to_string b) in
  (forall a b, 0 < lc a b -> lc b a <= 0) ->
  (forall a b, lc a b < 0 -> 0 <= lc b a) ->
  (forall a b c, lc a b <= 0 -> lc b c <= 0 -> lc a c <= 0) ->
  (forall a b c, 0 <= lc a b -> 0 <= lc b c -> 0 <= lc a c) ->
  let shown := sortedIssues localeCompare (Some data) status sortOrder in
  Permutation shown (ListIssuesResponse.issues data)
  /\ StronglySorted
       (fun a b =>
          match sortOrder with
          | asc => lc (Issue.status a) (Issue.status b) <= 0
          | desc => 0 <= lc (Issue.status a) (Issue.status b)
          end) shown.
Proof.
  cbv zeta. intros Hasym Hasym' Htrans Htrans'. simpl.
  split; [apply JsFacts.sort_perm|].
  destruct sortOrder.
  - apply (sort_ordered (comparator localeCompare status asc)); simpl.
    + intros a b. apply Hasym.
    + intros a b c. apply Htrans.
  - eapply JsFacts.StronglySorted_weaken;
      [|apply (sort_ordered (comparator localeCompare status desc)); simpl].
    + simpl. intros a b H. lia.
    + intros a b H.
      pose proof (Hasym' (Issue.status a) (Issue.status b)). lia.
    + intros a b c H1 H2.
      pose proof (Htrans' (Issue.status a) (Issue.status b) (Issue.status c)). lia.
Qed.

(** X17 with the collation by characters, which is consistent on the
    status names. *)
Lemma sorted_by_status_witness :
  Permutation
    (sortedIssues Samples.ordinalCompare
       (Some (ListIssuesResponse.mk [Samples.older; Samples.newer])) status asc)
    [Samples.older; Samples.newer].
Proof.
  refine (proj1 (sorted_by_status Samples.ordinalCompare
                   (ListIssuesResponse.mk [Samples.older; Samples.newer]) asc
                   _ _ _ _)).
  - intros [] []; vm_compute; congruence.
  - intros [] []; vm_compute; congruence.
  - intros [] [] []; vm_compute; congruence.
  - intros [] [] []; vm_compute; congruence.
Defined.

(** By characters the ascending order of the statuses is alphabetical:
    IN_PROGRESS, OPEN, REJECTED, RESOLVED. *)
Example status_order_is_alphabetical :
  let issue s := Issue.mk "i" None None "t" "d" Severity.LOW s None None None None 1 1 None in
  Issue.status <$>
    sortedIssues Samples.ordinalCompare
      (Some (ListIssuesResponse.mk
               [issue IssueStatus.RESOLVED; issue IssueStatus.OPEN;
                issue IssueStatus.REJECTED; issue IssueStatus.IN_PROGRESS]))
      status asc
  = [IssueStatus.IN_PROGRESS; IssueStatus.OPEN; IssueStatus.REJECTED;
     IssueStatus.RESOLVED].
Proof. reflexivity. Qed.

End StatusSortFacts.
